(** * henry: front-matter extraction and document assembly

    A shallow embedding of [henry.go] (the metadata-extraction and
    document-assembly pipeline of the static site generator), in the
    revision that has [createHenryDocument], together with the properties of
    its specification.

    Go strings are byte sequences; they are modelled by [string] (one
    [ascii] per byte).  Go run-time panics are modelled explicitly by the
    [result] type, Go [error] values by their message.  What [main] and
    [debug] print is left out. *)

From Stdlib Require Import String Ascii List Bool Arith Lia ZArith.
Import ListNotations.

Open Scope string_scope.
Open Scope nat_scope.

(** ** The part of Go's [strings] package used by henry.go *)

Module strings.

(** [s[:n]] (for [n <= len(s)]). *)
Fixpoint take (n : nat) (s : string) : string :=
  match n, s with
  | S n', String c s' => String c (take n' s')
  | _, _ => EmptyString
  end.

(** [s[n:]] (for [n <= len(s)]). *)
Fixpoint drop (n : nat) (s : string) : string :=
  match n, s with
  | S n', String _ s' => drop n' s'
  | _, _ => s
  end.

(** [func HasPrefix(s, prefix string) bool] *)
Definition HasPrefix (s pre : string) : bool := String.prefix pre s.

(** [func HasSuffix(s, suffix string) bool]:
    [len(s) >= len(suffix) && s[len(s)-len(suffix):] == suffix] *)
Definition HasSuffix (s suffix : string) : bool :=
  (String.length suffix <=? String.length s)
  && String.eqb (drop (String.length s - String.length suffix) s) suffix.

(** [func TrimPrefix(s, prefix string) string] *)
Definition TrimPrefix (s pre : string) : string :=
  if HasPrefix s pre then drop (String.length pre) s else s.

(** [func TrimSuffix(s, suffix string) string] *)
Definition TrimSuffix (s suffix : string) : string :=
  if HasSuffix s suffix
  then take (String.length s - String.length suffix) s
  else s.

(** [func Index(s, substr string) int]: the index of the first instance
    of [substr] in [s]; Go's [-1] is [None]. *)
Fixpoint Index (s substr : string) : option nat :=
  if HasPrefix s substr then Some 0
  else match s with
       | EmptyString => None
       | String _ s' => option_map S (Index s' substr)
       end.

(** The loop of [Count]:
    [for { i := Index(s, substr); if i == -1 { return n }; n++;
           s = s[i+len(substr):] }].
    For a non-empty [substr] every round consumes at least one byte, so
    [len(s)] rounds are always enough ([Count_loop_fuel] below). *)
Fixpoint Count_loop (fuel : nat) (s substr : string) : nat :=
  match fuel with
  | 0 => 0
  | S fuel' =>
      match Index s substr with
      | None => 0
      | Some i =>
          S (Count_loop fuel' (drop (i + String.length substr) s) substr)
      end
  end.

(** [func Count(s, substr string) int], for a non-empty [substr]: the
    number of non-overlapping instances of [substr] in [s]. *)
Definition Count (s substr : string) : nat :=
  Count_loop (String.length s) s substr.

(** The loop of [genSplit(s, sep, sepSave, n)] for [n < 0] and a
    non-empty [sep], where [n] has been set to [Count(s, sep)]:
    [for i < n { m := Index(s, sep); if m < 0 { break };
                 a[i] = s[:m+sepSave]; s = s[m+len(sep):]; i++ }
     a[i] = s]. *)
Fixpoint genSplit_loop (n : nat) (s sep : string) (sepSave : nat)
  : list string :=
  match n with
  | 0 => [s]
  | S n' =>
      match Index s sep with
      | None => [s]
      | Some m =>
          take (m + sepSave) s
            :: genSplit_loop n' (drop (m + String.length sep) s) sep sepSave
      end
  end.

Definition genSplit (s sep : string) (sepSave : nat) : list string :=
  genSplit_loop (Count s sep) s sep sepSave.

(** [func Split(s, sep string) []string { return genSplit(s, sep, 0, -1) }] *)
Definition Split (s sep : string) : list string := genSplit s sep 0.

(** [func SplitAfter(s, sep string) []string
     { return genSplit(s, sep, len(sep), -1) }] *)
Definition SplitAfter (s sep : string) : list string :=
  genSplit s sep (String.length sep).

(** The loop of [Replace(s, old, new, n)] once [n] is the number of
    replacements to make:
    [for i := 0; i < n; i++ { j := start + Index(s[start:], old);
       b.WriteString(s[start:j]); b.WriteString(new); start = j + len(old) }
     b.WriteString(s[start:])].
    The first argument is the remaining text [s[start:]]. *)
Fixpoint Replace_loop (n : nat) (s old new : string) : string :=
  match n with
  | 0 => s
  | S n' =>
      match Index s old with
      | None => s
      | Some j =>
          take j s ++ new
            ++ Replace_loop n' (drop (j + String.length old) s) old new
      end
  end.

(** [Replace(s, old, new, -1)] for a non-empty [old]. *)
Definition ReplaceAll (s old new : string) : string :=
  if String.eqb old new then s
  else Replace_loop (Count s old) s old new.

(** Membership of a byte in an ASCII cutset. *)
Fixpoint in_cutset (c : ascii) (cutset : string) : bool :=
  match cutset with
  | EmptyString => false
  | String d cutset' => Ascii.eqb c d || in_cutset c cutset'
  end.

(** [for len(s) > 0 && s[0] in cutset { s = s[1:] }] *)
Fixpoint TrimLeft (s cutset : string) : string :=
  match s with
  | EmptyString => EmptyString
  | String c s' => if in_cutset c cutset then TrimLeft s' cutset else s
  end.

(** [for len(s) > 0 && s[len(s)-1] in cutset { s = s[:len(s)-1] }] *)
Fixpoint TrimRight (s cutset : string) : string :=
  match s with
  | EmptyString => EmptyString
  | String c s' =>
      match TrimRight s' cutset with
      | EmptyString =>
          if in_cutset c cutset then EmptyString else String c EmptyString
      | r => String c r
      end
  end.

(** [func Trim(s, cutset string) string], for an ASCII cutset: all
    leading and trailing bytes of the cutset removed
    ([trimLeftByte(trimRightByte(s, c), c)] for a one-byte cutset). *)
Definition Trim (s cutset : string) : string :=
  TrimLeft (TrimRight s cutset) cutset.

End strings.

(** The newline byte, and Go's ["\n"]. *)
Definition newline : ascii := ascii_of_nat 10.
Definition nl : string := String newline EmptyString.

(** The front-matter delimiter. *)
Definition delimiter : string := "---".

(** ** Run-time values: errors, panics, slices, time *)

(** A Go [error], identified by its message ([err.Error()]). *)
Definition error : Type := string.

(** The run-time panics henry.go can raise. *)
Inductive panic : Type :=
| nil_dereference
| index_out_of_range (index length : nat)
| slice_bounds_out_of_range (high capacity : nat)
| panic_error (e : error).

(** The outcome of running a Go function: it returns, or it panics. *)
Inductive result (A : Type) : Type :=
| Ok (a : A)
| Panic (p : panic).

Arguments Ok {A} a.
Arguments Panic {A} p.

Definition bind {A B : Type} (r : result A) (k : A -> result B) : result B :=
  match r with
  | Ok a => k a
  | Panic p => Panic p
  end.

Notation "x <- r ;; k" := (bind r (fun x => k))
  (at level 61, r at next level, right associativity).
Notation "' pat <- r ;; k" := (bind r (fun x => match x with pat => k end))
  (at level 61, pat pattern, r at next level, right associativity).

(** A Go [[]byte]: the backing array from the slice's first element up to
    its capacity, and the slice's length.  The Go specification bounds a
    slice expression [a[low:high]] on a slice by [cap(a)], not by
    [len(a)]: "For slices, the upper index bound is the slice capacity
    cap(a) rather than the length". *)
Module slice.

Record bytes : Type := mk { array : string; len : nat }.

Definition cap (b : bytes) : nat := String.length (array b).

(** The nil slice. *)
Definition nil : bytes := mk EmptyString 0.

(** [string(b)] *)
Definition to_string (b : bytes) : string := strings.take (len b) (array b).

(** [b[0:high]], which panics when [high > cap(b)]. *)
Definition prefix (b : bytes) (high : nat) : result bytes :=
  if high <=? cap b then Ok (mk (array b) high)
  else Panic (slice_bounds_out_of_range high (cap b)).

End slice.

(** [time.Time], as the seconds and nanoseconds its [sec()] and [nsec()]
    give (counted from January 1, year 1, 00:00:00 UTC). *)
Record Time : Type := mkTime { sec : Z; nsec : Z }.

(** The zero value of [time.Time]. *)
Definition Time_zero : Time := mkTime 0 0.

(** [func (t Time) IsZero() bool { return t.sec() == 0 && t.nsec() == 0 }] *)
Definition IsZero (t : Time) : bool := (sec t =? 0)%Z && (nsec t =? 0)%Z.

(** ** The data model of henry.go *)

Inductive HenryFileType : Type :=
| HenryFileTypeUnknown
| HenryFileTypeMarkdown.

Record HenryFileMetadata : Type := mkMetadata {
  meta_Title : string;
  meta_Date : Time;
  meta_Draft : bool;
  meta_Summary : string
}.

(** [var metadata HenryFileMetadata] *)
Definition metadata_zero : HenryFileMetadata :=
  mkMetadata EmptyString Time_zero false EmptyString.

Record HenryFile : Type := mkFile {
  file_Name : string;
  file_Path : string;
  file_SubPath : string;
  file_Type : HenryFileType;
  file_Data : slice.bytes;
  file_Body : string;
  file_HasMetadata : bool;
  file_Metadata : option HenryFileMetadata;   (* *HenryFileMetadata; nil is None *)
  file_Date : Time
}.

Record HenryDocument : Type := mkDocument {
  doc_Title : string;
  doc_Content : string;
  doc_ContentRaw : string;
  doc_ContentParagraphs : list string;
  doc_Date : Time;
  doc_Draft : bool;
  doc_Summary : string;
  doc_SummaryRaw : string
}.

(** [&HenryFile{Name: name, Path: path}] *)
Definition new_HenryFile (name path : string) : HenryFile :=
  mkFile name path EmptyString HenryFileTypeUnknown slice.nil EmptyString
         false None Time_zero.

(** Field assignments [file.F = v]. *)
Definition set_Type (f : HenryFile) (v : HenryFileType) : HenryFile :=
  mkFile (file_Name f) (file_Path f) (file_SubPath f) v (file_Data f)
         (file_Body f) (file_HasMetadata f) (file_Metadata f) (file_Date f).

Definition set_SubPath (f : HenryFile) (v : string) : HenryFile :=
  mkFile (file_Name f) (file_Path f) v (file_Type f) (file_Data f)
         (file_Body f) (file_HasMetadata f) (file_Metadata f) (file_Date f).

Definition set_Data (f : HenryFile) (v : slice.bytes) : HenryFile :=
  mkFile (file_Name f) (file_Path f) (file_SubPath f) (file_Type f) v
         (file_Body f) (file_HasMetadata f) (file_Metadata f) (file_Date f).

Definition set_Body (f : HenryFile) (v : string) : HenryFile :=
  mkFile (file_Name f) (file_Path f) (file_SubPath f) (file_Type f)
         (file_Data f) v (file_HasMetadata f) (file_Metadata f) (file_Date f).

Definition set_HasMetadata (f : HenryFile) (v : bool) : HenryFile :=
  mkFile (file_Name f) (file_Path f) (file_SubPath f) (file_Type f)
         (file_Data f) (file_Body f) v (file_Metadata f) (file_Date f).

Definition set_Metadata (f : HenryFile) (v : option HenryFileMetadata)
  : HenryFile :=
  mkFile (file_Name f) (file_Path f) (file_SubPath f) (file_Type f)
         (file_Data f) (file_Body f) (file_HasMetadata f) v (file_Date f).

Definition set_Date (f : HenryFile) (v : Time) : HenryFile :=
  mkFile (file_Name f) (file_Path f) (file_SubPath f) (file_Type f)
         (file_Data f) (file_Body f) (file_HasMetadata f) (file_Metadata f) v.

(** ** External collaborators *)

(** The libraries henry.go calls.  [toml_Decode block m] is
    [toml.Decode(block, &m)]: it returns the state of the decoded-into
    variable afterwards and the error, if any.  [ReadAll_spare n] is the
    capacity [ioutil.ReadAll] leaves beyond the minimum it guarantees when it
    has read [n] bytes (it depends on the Go release's growth policy). *)
Class Libraries : Type := {
  toml_Decode : string -> HenryFileMetadata -> HenryFileMetadata * option error;
  blackfriday_Run : string -> string;
  UGCPolicy_SanitizeBytes : string -> string;
  ReadAll_spare : nat -> nat
}.

(** [os.FileInfo], as far as henry.go reads it. *)
Record FileInfo : Type := mkFileInfo {
  fi_Name : string;
  fi_IsDir : bool;
  fi_ModTime : Time
}.

(** One call of the walk function by [filepath.Walk]:
    [walkFn(path, info, err)]. *)
Record visit : Type := mkVisit {
  v_path : string;
  v_info : option FileInfo;
  v_err : option error
}.

(** The file system: the calls [filepath.Walk(root, _)] makes, in its
    (lexical) order, while the walk function returns nil; the bytes
    [os.Open] followed by [ioutil.ReadAll] yields for a path, or their
    error; and [os.Stat]. *)
Record FileSystem : Type := mkFS {
  fs_walk : string -> list visit;
  fs_read : string -> error + string;
  fs_Stat : string -> error + FileInfo
}.

(** [bytes.MinRead]: the buffer [ioutil.ReadAll] starts from. *)
Definition MinRead : nat := 512.

Fixpoint zeros (n : nat) : string :=
  match n with
  | 0 => EmptyString
  | S n' => String Ascii.zero (zeros n')
  end.

(** [a[i]] on a [[]string]. *)
Definition index (a : list string) (i : nat) : result string :=
  match nth_error a i with
  | Some x => Ok x
  | None => Panic (index_out_of_range i (List.length a))
  end.

(** [p.F] on a pointer [p]. *)
Definition deref {A : Type} (p : option A) : result A :=
  match p with
  | Some a => Ok a
  | None => Panic nil_dereference
  end.

(** [filepath.Walk(root, walkFn)] over the calls it makes: the walk stops
    at the first call whose walk function returns an error and returns that
    error.  (The walk function of henry.go never returns [filepath.SkipDir],
    the only error [Walk] treats differently.)  [S] is the state the
    closure captures. *)
Fixpoint Walk {S : Type} (visits : list visit)
    (walkFn : visit -> S -> result (S * option error)) (st : S)
  : result (S * option error) :=
  match visits with
  | [] => Ok (st, None)
  | v :: visits' =>
      '(st', err) <- walkFn v st ;;
      match err with
      | Some e => Ok (st', Some e)
      | None => Walk visits' walkFn st'
      end
  end.

(** ** henry.go *)

Section Henry.

Context {libs : Libraries}.
Variable fs : FileSystem.

(** [ioutil.ReadAll]: the bytes read, in a buffer that starts as
    [MinRead] zeroed bytes and only grows; the bytes past the length are
    zero. *)
Definition ioutil_ReadAll (content : string) : slice.bytes :=
  let n := String.length content in
  slice.mk (content ++ zeros (MinRead - n + ReadAll_spare n)) n.

Definition classifyHenryFile (file : HenryFile) (rootPath : string)
  : HenryFile * option error :=
  let file :=
    if strings.HasSuffix (file_Path file) ".md"
    then set_Type file HenryFileTypeMarkdown
    else set_Type file HenryFileTypeUnknown in
  let tmp := strings.TrimPrefix (file_Path file) rootPath in
  let tmp := strings.TrimSuffix tmp (file_Name file) in
  let file := set_SubPath file tmp in
  (file, None).

Definition readHenryFileData (file : HenryFile) : HenryFile * option error :=
  match fs_read fs (file_Path file) with
  | inl err => (file, Some err)
  | inr content => (set_Data file (ioutil_ReadAll content), None)
  end.

(** [errors.New(fmt.Sprintf("error parsing metadata in '%s': %s", name, err))] *)
Definition MetadataParseError (name : string) (err : error) : error :=
  "error parsing metadata in '" ++ name ++ "': " ++ err.

Definition readHenryFileMetadata (file : HenryFile)
  : result (HenryFile * option error) :=
  let metadata := metadata_zero in
  if slice.len (file_Data file) =? 0 then Ok (file, None)
  else
    let file := set_HasMetadata file false in
    let file := set_Metadata file (Some metadata) in
    hdr <- slice.prefix (file_Data file) 3 ;;
    if negb (String.eqb (slice.to_string hdr) delimiter) then
      Ok (set_Body file (slice.to_string (file_Data file)), None)
    else
      let headerParts :=
        strings.Split (slice.to_string (file_Data file)) delimiter in
      block <- index headerParts 1 ;;
      let '(metadata, err) := toml_Decode block metadata in
      (* [file.Metadata] already points to [metadata] *)
      let file := set_Metadata file (Some metadata) in
      match err with
      | Some err => Ok (file, Some (MetadataParseError (file_Name file) err))
      | None =>
          let file := set_HasMetadata file true in
          let file := set_Metadata file (Some metadata) in
          body <- index headerParts 2 ;;
          Ok (set_Body file body, None)
      end.

Definition analyzeHenryFile (file : HenryFile) (rootPath : string)
  : result (HenryFile * option error) :=
  let '(file, err) := classifyHenryFile file rootPath in
  match err with
  | Some err => Ok (file, Some err)
  | None =>
      '(file, err) <-
        match file_Type file with
        | HenryFileTypeMarkdown =>
            let '(file, readErr) := readHenryFileData file in
            match readErr with
            | Some readErr => Ok (file, Some readErr)
            | None => readHenryFileMetadata file
            end
        | HenryFileTypeUnknown => Ok (file, None)
        end ;;
      match err with
      | Some err => Ok (file, Some err)
      | None =>
          match fs_Stat fs (file_Path file) with
          | inl err => Ok (file, Some err)
          | inr info => Ok (set_Date file (fi_ModTime info), None)
          end
      end
  end.

(** The paragraphs loop of [createHenryDocument]:
    [for _, paragraph := range strings.SplitAfter(doc.Content, "\n")
       { append(doc.ContentParagraphs, strings.Trim(paragraph, "\n")) }] *)
Definition ContentParagraphs (content : string) : list string :=
  map (fun paragraph => strings.Trim paragraph nl)
      (strings.SplitAfter content nl).

Definition createHenryDocument (file : HenryFile)
  : result (HenryDocument * option error) :=
  let u := blackfriday_Run (file_Body file) in
  let h := UGCPolicy_SanitizeBytes u in
  let content := strings.ReplaceAll h (nl ++ nl) nl in
  let content := strings.Trim content nl in
  let paragraphs := ContentParagraphs content in
  metadata <- deref (file_Metadata file) ;;
  let title :=
    if negb (String.eqb (meta_Title metadata) "")
    then meta_Title metadata
    else file_Name file in
  let date :=
    if negb (IsZero (meta_Date metadata))
    then meta_Date metadata
    else file_Date file in
  let draft :=
    if meta_Draft metadata then meta_Draft metadata else false in
  let '(summary, summaryRaw) :=
    if negb (String.eqb (meta_Summary metadata) "") then
      let su := blackfriday_Run (meta_Summary metadata) in
      let sh := UGCPolicy_SanitizeBytes su in
      (sh, meta_Summary metadata)
    else
      match paragraphs with
      | first :: _ => (first, EmptyString)
      | [] => (EmptyString, EmptyString)
      end in
  Ok (mkDocument title content (file_Body file) paragraphs date draft
                 summary summaryRaw, None).

(** The loop of [createHenryDocuments]; a file whose document fails is
    reported by [debug] and skipped. *)
Fixpoint createHenryDocuments_loop (files : list HenryFile)
    (docs : list HenryDocument) : result (list HenryDocument) :=
  match files with
  | [] => Ok docs
  | file :: files' =>
      '(doc, err) <- createHenryDocument file ;;
      match err with
      | Some _ => createHenryDocuments_loop files' docs
      | None => createHenryDocuments_loop files' (docs ++ [doc])%list
      end
  end.

Definition createHenryDocuments (files : list HenryFile)
  : result (list HenryDocument * option error) :=
  docs <- createHenryDocuments_loop files [] ;;
  Ok (docs, None).

(** The walk function of [findHenryFiles]; the captured [foundFiles] is
    the state. *)
Definition findHenryFiles_walkFn (rootPath : string) (v : visit)
    (foundFiles : list HenryFile)
  : result (list HenryFile * option error) :=
  match v_err v with
  | Some err => Ok (foundFiles, Some err)
  | None =>
      file <- deref (v_info v) ;;
      if negb (fi_IsDir file) then
        let henryFile := new_HenryFile (fi_Name file) (v_path v) in
        '(henryFile, err) <- analyzeHenryFile henryFile rootPath ;;
        match err with
        | None => Ok ((foundFiles ++ [henryFile])%list, None)
        | Some err => Ok (foundFiles, Some err)
        end
      else Ok (foundFiles, None)
  end.

Definition findHenryFiles (rootPath : string)
  : result (list HenryFile * option error) :=
  Walk (fs_walk fs rootPath) (findHenryFiles_walkFn rootPath) [].

(** [main] for a given root path: the documents it prints, or the panic
    it ends with. *)
Definition main_at (rootPath : string) : result (list HenryDocument) :=
  '(henryFiles, err) <- findHenryFiles rootPath ;;
  match err with
  | Some err => Panic (panic_error err)
  | None =>
      '(henryDocs, err) <- createHenryDocuments henryFiles ;;
      match err with
      | Some err => Panic (panic_error err)
      | None => Ok henryDocs
      end
  end.

Definition main : result (list HenryDocument) :=
  main_at "/Users/claes/go/src/github.com/claesp/henry/data/".

End Henry.

(** ** A decoder for a fragment of TOML

    A stand-in for [toml.Decode], to run the model on concrete files; the
    theorems quantify over every decoder.  It reads blank lines, comment
    lines and [key = value] lines whose value is [true], [false] or a basic
    string without escapes; the lower-case keys [title] and [summary] take
    a string, [draft] a boolean, other keys are ignored.  It accepts and
    rejects the files of [Examples] as [toml.Decode] does and decodes the
    same values from them; the text of its errors is its own, it matches
    keys by their exact spelling, and it has no date values. *)

Module toml_lite.

Inductive value : Type :=
| VString (s : string)
| VBool (b : bool).

Definition quote : ascii := ascii_of_nat 34.
Definition backslash : ascii := ascii_of_nat 92.

(** Space, tab and carriage return. *)
Definition whitespace : string :=
  String " " (String (ascii_of_nat 9) (String (ascii_of_nat 13) EmptyString)).

Definition trim_space (s : string) : string := strings.Trim s whitespace.

Definition bare_key_char (c : ascii) : bool :=
  let n := nat_of_ascii c in
  ((65 <=? n) && (n <=? 90)) || ((97 <=? n) && (n <=? 122))
  || ((48 <=? n) && (n <=? 57)) || (n =? 95) || (n =? 45).

Fixpoint bare_key (s : string) : bool :=
  match s with
  | EmptyString => true
  | String c s' => bare_key_char c && bare_key s'
  end.

(** No quote, no backslash, no control character. *)
Fixpoint plain (s : string) : bool :=
  match s with
  | EmptyString => true
  | String c s' =>
      negb (Ascii.eqb c quote) && negb (Ascii.eqb c backslash)
      && (32 <=? nat_of_ascii c) && plain s'
  end.

Definition parse_value (v : string) : option value :=
  if String.eqb v "true" then Some (VBool true)
  else if String.eqb v "false" then Some (VBool false)
  else
    match v with
    | String c rest =>
        let n := String.length rest in
        if Ascii.eqb c quote && (1 <=? n)
           && String.eqb (strings.drop (n - 1) rest) (String quote EmptyString)
           && plain (strings.take (n - 1) rest)
        then Some (VString (strings.take (n - 1) rest))
        else None
    | EmptyString => None
    end.

Definition parse_line (line : string) : error + option (string * value) :=
  let t := trim_space line in
  match t with
  | EmptyString => inr None
  | String c _ =>
      if Ascii.eqb c "#" then inr None
      else
        match strings.Index t "=" with
        | None => inl "expected key separator '='"
        | Some i =>
            let key := trim_space (strings.take i t) in
            let v := trim_space (strings.drop (i + 1) t) in
            if negb (String.eqb key EmptyString) && bare_key key then
              match parse_value v with
              | Some x => inr (Some (key, x))
              | None => inl ("invalid value for key '" ++ key ++ "'")
              end
            else inl "invalid key"
        end
  end.

Fixpoint parse_lines (lines : list string) (seen : list string)
  : error + list (string * value) :=
  match lines with
  | [] => inr []
  | line :: lines' =>
      match parse_line line with
      | inl e => inl e
      | inr None => parse_lines lines' seen
      | inr (Some (key, x)) =>
          if existsb (String.eqb key) seen
          then inl ("key '" ++ key ++ "' has already been defined")
          else
            match parse_lines lines' (key :: seen) with
            | inl e => inl e
            | inr kvs => inr ((key, x) :: kvs)
            end
      end
  end.

Definition mismatch (key : string) : error :=
  "incompatible types for key '" ++ key ++ "'".

Fixpoint unify (kvs : list (string * value)) (m : HenryFileMetadata)
  : HenryFileMetadata * option error :=
  match kvs with
  | [] => (m, None)
  | (key, x) :: kvs' =>
      if String.eqb key "title" then
        match x with
        | VString s =>
            unify kvs' (mkMetadata s (meta_Date m) (meta_Draft m)
                                   (meta_Summary m))
        | VBool _ => (m, Some (mismatch key))
        end
      else if String.eqb key "summary" then
        match x with
        | VString s =>
            unify kvs' (mkMetadata (meta_Title m) (meta_Date m)
                                   (meta_Draft m) s)
        | VBool _ => (m, Some (mismatch key))
        end
      else if String.eqb key "draft" then
        match x with
        | VBool b =>
            unify kvs' (mkMetadata (meta_Title m) (meta_Date m) b
                                   (meta_Summary m))
        | VString _ => (m, Some (mismatch key))
        end
      else if String.eqb key "date" then (m, Some (mismatch key))
      else unify kvs' m
  end.

Definition Decode (block : string) (m : HenryFileMetadata)
  : HenryFileMetadata * option error :=
  match parse_lines (strings.Split block nl) [] with
  | inl e => (m, Some e)
  | inr kvs => unify kvs m
  end.

End toml_lite.

(** ** Concrete collaborators and files, to run the model *)

Module Examples.

(** What the renderer gives for a text that is one paragraph of plain
    words: the paragraph between [<p>] and [</p>], and a newline. *)
Definition render_paragraph (s : string) : string :=
  let t := strings.Trim s nl in
  if String.eqb t EmptyString then EmptyString
  else "<p>" ++ t ++ "</p>" ++ nl.

(** [toml_lite] as the decoder, [render_paragraph] as the renderer; the
    sanitizer leaves a paragraph of plain words as it is. *)
Definition libs : Libraries := {|
  toml_Decode := toml_lite.Decode;
  blackfriday_Run := render_paragraph;
  UGCPolicy_SanitizeBytes := fun s => s;
  ReadAll_spare := fun _ => 0
|}.

Definition dq : string := String toml_lite.quote EmptyString.

Record file : Type := mkExample {
  ex_name : string;
  ex_content : string;
  ex_mtime : Time
}.

Fixpoint lookup (root path : string) (files : list file) : option file :=
  match files with
  | [] => None
  | f :: files' =>
      if String.eqb path (root ++ ex_name f) then Some f
      else lookup root path files'
  end.

(** A directory [root] that holds exactly [files], in this order.  The
    texts of its errors are short forms of those of the operating system
    (which also name the path). *)
Definition directory (root : string) (files : list file) : FileSystem := {|
  fs_walk := fun r =>
    if String.eqb r root then
      mkVisit root (Some (mkFileInfo "data" true Time_zero)) None
        :: map (fun f => mkVisit (root ++ ex_name f)
                           (Some (mkFileInfo (ex_name f) false (ex_mtime f)))
                           None) files
    else [mkVisit r None (Some "lstat: no such file or directory")];
  fs_read := fun path =>
    match lookup root path files with
    | Some f => inr (ex_content f)
    | None => inl "open: no such file or directory"
    end;
  fs_Stat := fun path =>
    match lookup root path files with
    | Some f => inr (mkFileInfo (ex_name f) false (ex_mtime f))
    | None => inl "stat: no such file or directory"
    end
|}.

Definition root : string := "data/".

(** A file record as [findHenryFiles] hands it to
    [readHenryFileMetadata]: created, classified, its bytes read. *)
Definition loaded (name content : string) : HenryFile :=
  set_Data (fst (classifyHenryFile (new_HenryFile name (root ++ name)) root))
           (ioutil_ReadAll (libs := libs) content).

(** A post with a title, a draft flag and a one-line body. *)
Definition hello_md : string :=
  "---" ++ nl ++ "title = " ++ dq ++ "Hello" ++ dq ++ nl
    ++ "draft = true" ++ nl ++ "---" ++ nl ++ "First post" ++ nl.

(** A post whose body holds a thematic break. *)
Definition rule_md : string :=
  "---" ++ nl ++ "title = " ++ dq ++ "Rule" ++ dq ++ nl ++ "---" ++ nl
    ++ "above" ++ nl ++ "---" ++ nl ++ "below" ++ nl.

(** A post whose front matter is not TOML. *)
Definition broken_md : string :=
  "---" ++ nl ++ "title" ++ nl ++ "---" ++ nl ++ "Second post" ++ nl.

(** A post without front matter. *)
Definition plain_md : string := "Third post" ++ nl.

(** A post whose front matter is never closed. *)
Definition unclosed_md : string :=
  "---" ++ nl ++ "title = " ++ dq ++ "Hello" ++ dq ++ nl.

Definition noon : Time := mkTime 63800000000 0.

(** The record of [hello_md] once analyzed. *)
Definition hello_file : HenryFile :=
  mkFile "a.md" "data/a.md" EmptyString HenryFileTypeMarkdown
         (ioutil_ReadAll (libs := libs) hello_md)
         (nl ++ "First post" ++ nl) true
         (Some (mkMetadata "Hello" Time_zero true EmptyString)) noon.

(** The record of [plain_md] once analyzed. *)
Definition plain_file : HenryFile :=
  mkFile "c.md" "data/c.md" EmptyString HenryFileTypeMarkdown
         (ioutil_ReadAll (libs := libs) plain_md)
         plain_md false (Some metadata_zero) noon.

(** The documents of [hello_md] and [plain_md]. *)
Definition hello_doc : HenryDocument :=
  mkDocument "Hello" "<p>First post</p>" (nl ++ "First post" ++ nl)
             ["<p>First post</p>"] noon true "<p>First post</p>" EmptyString.

Definition plain_doc : HenryDocument :=
  mkDocument "c.md" "<p>Third post</p>" plain_md ["<p>Third post</p>"]
             noon false "<p>Third post</p>" EmptyString.

(** The front-matter block of [rule_md]. *)
Definition rule_block : string :=
  nl ++ "title = " ++ dq ++ "Rule" ++ dq ++ nl.

(** The text of [rule_md] after its second delimiter. *)
Definition rule_after : string :=
  nl ++ "above" ++ nl ++ "---" ++ nl ++ "below" ++ nl.

Definition three_files : list file :=
  [ mkExample "a.md" hello_md noon;
    mkExample "b.md" broken_md noon;
    mkExample "c.md" plain_md noon ].

(** The visits of a walk over [directory root three_files]. *)
Definition visit_root : visit :=
  mkVisit root (Some (mkFileInfo "data" true Time_zero)) None.

Definition visit_of (name : string) : visit :=
  mkVisit (root ++ name) (Some (mkFileInfo name false noon)) None.

Definition parse_error : error := "expected key separator '='".

(** A directory whose one markdown file cannot be opened. *)
Definition unreadable : FileSystem := {|
  fs_walk := fs_walk (directory root [mkExample "a.md" hello_md noon]);
  fs_read := fun _ => inl "open: permission denied";
  fs_Stat := fs_Stat (directory root [mkExample "a.md" hello_md noon])
|}.

(** A directory with a markdown file and a text file, and the record of
    the text file once analyzed. *)
Definition mixed_files : list file :=
  [ mkExample "a.md" hello_md noon;
    mkExample "notes.txt" "plain notes" noon ].

Definition notes_file : HenryFile :=
  mkFile "notes.txt" "data/notes.txt" EmptyString HenryFileTypeUnknown
         slice.nil EmptyString false None noon.

(** The record of [hello_md] after classification and reading, and after
    parsing. *)
Definition hello_parsed : HenryFile :=
  set_Body
    (set_Metadata (set_HasMetadata (loaded "a.md" hello_md) true)
                  (Some (mkMetadata "Hello" Time_zero true EmptyString)))
    (nl ++ "First post" ++ nl).

End Examples.

(** ** Notions the properties are stated with *)

(** [s] holds the byte [c]. *)
Fixpoint contains_byte (c : ascii) (s : string) : bool :=
  match s with
  | EmptyString => false
  | String a s' => Ascii.eqb a c || contains_byte c s'
  end.

(** No byte of [s] but possibly its last is [c]. *)
Fixpoint only_last (c : ascii) (s : string) : bool :=
  match s with
  | EmptyString => true
  | String a s' =>
      match s' with
      | EmptyString => true
      | String _ _ => negb (Ascii.eqb a c) && only_last c s'
      end
  end.

(** The text before the first occurrence of [sep] in [s] and the text
    after it, when there is one. *)
Definition cut (s sep : string) : option (string * string) :=
  match strings.Index s sep with
  | Some i => Some (strings.take i s, strings.drop (i + String.length sep) s)
  | None => None
  end.

(** The text of [s] up to its first occurrence of [sep]; all of [s] when
    there is none. *)
Definition up_to (s sep : string) : string :=
  match cut s sep with
  | Some (before, _) => before
  | None => s
  end.

(** What the walk function of [findHenryFiles] adds to [foundFiles] at a
    visit it accepts: nothing for a directory, the analyzed record for a
    file whose analysis returns no error. *)
Definition collects {libs : Libraries} (fs : FileSystem) (rootPath : string)
    (v : visit) (files : list HenryFile) : Prop :=
  v_err v = None
  /\ exists info,
       v_info v = Some info
       /\ if fi_IsDir info then files = []
          else exists file,
                 analyzeHenryFile fs (new_HenryFile (fi_Name info) (v_path v))
                                  rootPath = Ok (file, None)
                 /\ files = [file].

(** ** Facts about the string functions *)

Section StringFacts.

Lemma length_drop (n : nat) (s : string) :
  String.length (strings.drop n s) = String.length s - n.
Proof.
  revert s; induction n as [|n IH]; intros [|a s]; simpl; auto.
Qed.

Lemma prefix_length (p s : string) :
  String.prefix p s = true -> String.length p <= String.length s.
Proof.
  revert s; induction p as [|a p IH]; intros [|b s]; simpl;
    try lia; try discriminate.
  destruct (ascii_dec a b); [|discriminate].
  intros H; apply IH in H; lia.
Qed.

Lemma prefix_split (p s : string) :
  String.prefix p s = true -> s = p ++ strings.drop (String.length p) s.
Proof.
  revert s; induction p as [|a p IH]; intros [|b s]; simpl;
    try reflexivity; try discriminate.
  destruct (ascii_dec a b) as [->|]; [|discriminate].
  intros H; f_equal; now apply IH.
Qed.

Lemma prefix_append (p s : string) : String.prefix p (p ++ s) = true.
Proof.
  induction p as [|a p IH]; simpl; [now destruct s|].
  destruct (ascii_dec a a); [assumption|congruence].
Qed.

Lemma drop_append (p s : string) : strings.drop (String.length p) (p ++ s) = s.
Proof. induction p as [|a p IH]; simpl; [now destruct s|assumption]. Qed.

Lemma take_append (p s : string) : strings.take (String.length p) (p ++ s) = p.
Proof.
  induction p as [|a p IH]; simpl; [now destruct s|now rewrite IH].
Qed.

Lemma Index_empty (sep : string) :
  sep <> EmptyString -> strings.Index EmptyString sep = None.
Proof. destruct sep; [congruence|reflexivity]. Qed.

Lemma Index_unfold (s sep : string) :
  strings.Index s sep =
  if String.prefix sep s then Some 0
  else match s with
       | EmptyString => None
       | String _ s' => option_map S (strings.Index s' sep)
       end.
Proof. destruct s; reflexivity. Qed.

Lemma Index_bound (sep s : string) (i : nat) :
  strings.Index s sep = Some i -> i + String.length sep <= String.length s.
Proof.
  revert i; induction s as [|a s IH]; intros i; rewrite Index_unfold;
    destruct (String.prefix sep _) eqn:E; try discriminate.
  - intros [= <-]. apply prefix_length in E. simpl in *; lia.
  - intros [= <-]. apply prefix_length in E. simpl in *; lia.
  - destruct (strings.Index s sep) as [j|]; [|discriminate].
    intros [= <-]. specialize (IH j eq_refl). simpl; lia.
Qed.

Variable sep : string.
Hypothesis sep_nonempty : sep <> EmptyString.

Lemma length_sep : 1 <= String.length sep.
Proof. destruct sep; [congruence|simpl; lia]. Qed.

Lemma Count_loop_fuel (fuel fuel' : nat) (s : string) :
  String.length s <= fuel -> String.length s <= fuel' ->
  strings.Count_loop fuel s sep = strings.Count_loop fuel' s sep.
Proof.
  revert fuel' s; induction fuel as [|fuel IH]; intros fuel' s Hf Hf'.
  - destruct s; [|simpl in Hf; lia].
    destruct fuel'; cbn [strings.Count_loop]; [reflexivity|].
    now rewrite Index_empty.
  - destruct fuel' as [|fuel'].
    + destruct s; [|simpl in Hf'; lia].
      cbn [strings.Count_loop]. now rewrite Index_empty.
    + cbn [strings.Count_loop].
      destruct (strings.Index s sep) as [i|] eqn:E; [|reflexivity].
      pose proof (Index_bound _ _ _ E). pose proof length_sep.
      f_equal; apply IH; rewrite length_drop; lia.
Qed.

(** [Count] unfolds as its loop does. *)
Lemma Count_eq (s : string) :
  strings.Count s sep =
  match strings.Index s sep with
  | None => 0
  | Some i => S (strings.Count (strings.drop (i + String.length sep) s) sep)
  end.
Proof.
  unfold strings.Count.
  destruct (String.length s) as [|n] eqn:L.
  - destruct s; [|discriminate].
    cbn [strings.Count_loop]. now rewrite Index_empty.
  - cbn [strings.Count_loop].
    destruct (strings.Index s sep) as [i|] eqn:E; [|reflexivity].
    pose proof (Index_bound _ _ _ E). pose proof length_sep.
    f_equal; apply Count_loop_fuel; rewrite ?length_drop; lia.
Qed.

(** [genSplit] cuts at the first separator and goes on with the rest. *)
Lemma genSplit_eq (s : string) (sepSave : nat) :
  strings.genSplit s sep sepSave =
  match strings.Index s sep with
  | None => [s]
  | Some m =>
      strings.take (m + sepSave) s
        :: strings.genSplit (strings.drop (m + String.length sep) s) sep sepSave
  end.
Proof.
  unfold strings.genSplit. rewrite Count_eq.
  destruct (strings.Index s sep) as [m|] eqn:E;
    cbn [strings.genSplit_loop]; now rewrite ?E.
Qed.

End StringFacts.

(** ** Splitting after a byte, and trimming it *)

Section ByteFacts.

Variable c : ascii.

Local Abbreviation sep := (String c EmptyString).

Lemma prefix_byte (a : ascii) (s : string) :
  String.prefix sep (String a s) = Ascii.eqb a c.
Proof.
  simpl. destruct (ascii_dec c a) as [->|N].
  - rewrite Ascii.eqb_refl. now destruct s.
  - symmetry. apply Ascii.eqb_neq. congruence.
Qed.

Lemma Index_byte_None (s : string) :
  strings.Index s sep = None -> contains_byte c s = false.
Proof.
  induction s as [|a s IH]; [reflexivity|].
  rewrite Index_unfold, prefix_byte. simpl.
  destruct (Ascii.eqb a c); [discriminate|].
  destruct (strings.Index s sep); [discriminate|]. auto.
Qed.

Lemma Index_byte_Some (s : string) (i : nat) :
  strings.Index s sep = Some i -> only_last c (strings.take (i + 1) s) = true.
Proof.
  revert i; induction s as [|a s IH]; intros i.
  - rewrite Index_unfold. discriminate.
  - rewrite Index_unfold, prefix_byte.
    destruct (Ascii.eqb a c) eqn:E.
    + intros [= <-]. simpl. now destruct s.
    + destruct (strings.Index s sep) as [j|]; [|discriminate].
      intros [= <-]. specialize (IH j eq_refl).
      change (strings.take (S j + 1) (String a s))
        with (String a (strings.take (j + 1) s)).
      cbn [only_last]. rewrite E, IH. now destruct (strings.take (j + 1) s).
Qed.

Lemma contains_only_last (s : string) :
  contains_byte c s = false -> only_last c s = true.
Proof.
  induction s as [|a s IH]; [reflexivity|]. cbn [contains_byte only_last].
  intros H; apply orb_false_elim in H as [Ha Hs].
  rewrite Ha, (IH Hs). now destruct s.
Qed.

Lemma TrimRight_only_last (s : string) :
  only_last c s = true -> contains_byte c (strings.TrimRight s sep) = false.
Proof.
  induction s as [|a s IH]; [reflexivity|].
  cbn [only_last strings.TrimRight]. destruct s as [|b s].
  - intros _. cbn. rewrite orb_false_r.
    destruct (Ascii.eqb a c) eqn:E; cbn; now rewrite ?E.
  - intros H; apply andb_prop in H as [Ha Hs].
    apply negb_true_iff in Ha. specialize (IH Hs).
    destruct (strings.TrimRight (String b s) sep) as [|b' r].
    + cbn. rewrite orb_false_r, Ha. cbn. now rewrite Ha.
    + cbn [contains_byte] in *. now rewrite Ha, IH.
Qed.

Lemma TrimLeft_contains (s cutset : string) :
  contains_byte c s = false ->
  contains_byte c (strings.TrimLeft s cutset) = false.
Proof.
  induction s as [|a s IH]; [reflexivity|].
  cbn [strings.TrimLeft]. destruct (strings.in_cutset a cutset); [|auto].
  cbn [contains_byte]. intros H; apply orb_false_elim in H as [_ Hs]. auto.
Qed.

(** Trimming a piece that holds the byte at its end only removes it. *)
Lemma Trim_only_last (s : string) :
  only_last c s = true -> contains_byte c (strings.Trim s sep) = false.
Proof.
  intros H. unfold strings.Trim.
  now apply TrimLeft_contains, TrimRight_only_last.
Qed.

Lemma byte_sep_nonempty : sep <> EmptyString.
Proof. discriminate. Qed.

(** Every piece [SplitAfter] yields holds the separator byte at its end
    only. *)
Lemma SplitAfter_only_last (s : string) :
  Forall (fun p => only_last c p = true) (strings.SplitAfter s sep).
Proof.
  remember (String.length s) as n eqn:L.
  assert (Hn : String.length s <= n) by lia. clear L.
  revert s Hn; induction n as [|n IH]; intros s Hn;
    unfold strings.SplitAfter in *; rewrite (genSplit_eq sep byte_sep_nonempty).
  - destruct s; [|simpl in Hn; lia].
    rewrite Index_empty by apply byte_sep_nonempty. now repeat constructor.
  - destruct (strings.Index s sep) as [m|] eqn:E.
    + constructor.
      * now apply Index_byte_Some.
      * apply IH. pose proof (Index_bound _ _ _ E) as B.
        rewrite length_drop. simpl in *. lia.
    + constructor; [|constructor].
      now apply contains_only_last, Index_byte_None.
Qed.

End ByteFacts.

(** ** The Document Builder *)

Section DocumentBuilder.

Context {libs : Libraries}.

(** What [createHenryDocument] returns on a record whose metadata pointer
    is set. *)
Lemma createHenryDocument_Some (file : HenryFile) (m : HenryFileMetadata) :
  file_Metadata file = Some m ->
  let content :=
    strings.Trim
      (strings.ReplaceAll
         (UGCPolicy_SanitizeBytes (blackfriday_Run (file_Body file)))
         (nl ++ nl) nl) nl in
  let paragraphs := ContentParagraphs content in
  let summary :=
    if String.eqb (meta_Summary m) EmptyString then
      (match paragraphs with first :: _ => first | [] => EmptyString end,
       EmptyString)
    else
      (UGCPolicy_SanitizeBytes (blackfriday_Run (meta_Summary m)),
       meta_Summary m) in
  createHenryDocument file =
  Ok (mkDocument
        (if String.eqb (meta_Title m) EmptyString
         then file_Name file else meta_Title m)
        content (file_Body file) paragraphs
        (if IsZero (meta_Date m) then file_Date file else meta_Date m)
        (meta_Draft m) (fst summary) (snd summary), None).
Proof.
  intros H. unfold createHenryDocument. rewrite H. cbn [deref bind].
  destruct (String.eqb (meta_Title m) EmptyString),
    (IsZero (meta_Date m)), (meta_Draft m),
    (String.eqb (meta_Summary m) EmptyString); cbn [negb];
    try reflexivity;
    now destruct (ContentParagraphs _).
Qed.

(** On a record whose metadata pointer is nil, [file.Metadata.Title]
    panics. *)
Lemma createHenryDocument_nil (file : HenryFile) :
  file_Metadata file = None ->
  createHenryDocument file = Panic nil_dereference.
Proof. intros H. unfold createHenryDocument. now rewrite H. Qed.

(** When [createHenryDocument] returns, the metadata pointer was set and
    there is no error. *)
Lemma createHenryDocument_Ok (file : HenryFile) (doc : HenryDocument)
    (err : option error) :
  createHenryDocument file = Ok (doc, err) ->
  err = None /\ exists m, file_Metadata file = Some m.
Proof.
  destruct (file_Metadata file) as [m|] eqn:E.
  - rewrite (createHenryDocument_Some _ _ E). intros [= <- <-]. eauto.
  - rewrite (createHenryDocument_nil _ E). discriminate.
Qed.

(** C6: the Document's summary is the rendered and sanitized metadata
    summary (no collapsing of double newlines) with the raw metadata
    summary as summary-raw when the metadata summary is non-empty;
    otherwise it is the first content paragraph with an empty
    summary-raw, and both are empty when there is no paragraph. *)
Theorem summary_resolution (file : HenryFile) (m : HenryFileMetadata) :
  file_Metadata file = Some m ->
  exists doc,
    createHenryDocument file = Ok (doc, None)
    /\ (meta_Summary m <> EmptyString ->
        doc_Summary doc
          = UGCPolicy_SanitizeBytes (blackfriday_Run (meta_Summary m))
        /\ doc_SummaryRaw doc = meta_Summary m)
    /\ (meta_Summary m = EmptyString ->
        doc_SummaryRaw doc = EmptyString
        /\ match doc_ContentParagraphs doc with
           | first :: _ => doc_Summary doc = first
           | [] => doc_Summary doc = EmptyString
           end).
Proof.
  intros H. eexists. split; [apply (createHenryDocument_Some _ _ H)|].
  cbn [doc_Summary doc_SummaryRaw doc_ContentParagraphs].
  destruct (String.eqb (meta_Summary m) EmptyString) eqn:E.
  - apply String.eqb_eq in E. split; [congruence|]. intros _.
    split; [reflexivity|]. now destruct (ContentParagraphs _).
  - apply String.eqb_neq in E. split; [|congruence]. now intros _.
Qed.

(** C7: the Document's title is the metadata title when that is a
    non-empty string, and the File Record's file name otherwise. *)
Theorem title_resolution (file : HenryFile) (m : HenryFileMetadata) :
  file_Metadata file = Some m ->
  exists doc,
    createHenryDocument file = Ok (doc, None)
    /\ (meta_Title m <> EmptyString -> doc_Title doc = meta_Title m)
    /\ (meta_Title m = EmptyString -> doc_Title doc = file_Name file).
Proof.
  intros H. eexists. split; [apply (createHenryDocument_Some _ _ H)|].
  cbn [doc_Title].
  destruct (String.eqb (meta_Title m) EmptyString) eqn:E.
  - apply String.eqb_eq in E. split; congruence.
  - apply String.eqb_neq in E. split; congruence.
Qed.

(** C9: the draft resolution of the Document Builder (the metadata draft
    flag if it is true, else false) gives, for both values of the flag,
    the flag itself. *)
Theorem draft_resolution (file : HenryFile) (m : HenryFileMetadata) :
  file_Metadata file = Some m ->
  (if meta_Draft m then meta_Draft m else false) = meta_Draft m
  /\ exists doc,
       createHenryDocument file = Ok (doc, None)
       /\ doc_Draft doc = meta_Draft m.
Proof.
  intros H. split; [now destruct (meta_Draft m)|].
  eexists. split; [apply (createHenryDocument_Some _ _ H)|]. reflexivity.
Qed.

(** C10: the content paragraphs are the pieces of the content split
    after each newline, each trimmed of newlines, and no paragraph holds
    a newline. *)
Theorem paragraphs_newline_free (file : HenryFile) (doc : HenryDocument)
    (err : option error) :
  createHenryDocument file = Ok (doc, err) ->
  doc_ContentParagraphs doc
    = map (fun piece => strings.Trim piece nl)
          (strings.SplitAfter (doc_Content doc) nl)
  /\ Forall (fun paragraph => contains_byte newline paragraph = false)
            (doc_ContentParagraphs doc).
Proof.
  intros H. destruct (createHenryDocument_Ok _ _ _ H) as [-> [m Hm]].
  rewrite (createHenryDocument_Some _ _ Hm) in H. injection H as <-.
  cbn [doc_ContentParagraphs doc_Content]. split; [reflexivity|].
  unfold ContentParagraphs. apply Forall_map.
  eapply Forall_impl; [|apply SplitAfter_only_last].
  intros p Hp. now apply Trim_only_last.
Qed.

End DocumentBuilder.

(** ** The Front-Matter Parser *)

Section FrontMatter.

Context {libs : Libraries}.

Lemma length_zeros (n : nat) : String.length (zeros n) = n.
Proof. induction n; simpl; auto. Qed.

Lemma length_append (s t : string) :
  String.length (s ++ t) = String.length s + String.length t.
Proof. induction s; simpl; auto. Qed.

(** [string(data)] of what [ioutil.ReadAll] returns is the content. *)
Lemma to_string_ReadAll (content : string) :
  slice.to_string (ioutil_ReadAll content) = content.
Proof. unfold slice.to_string, ioutil_ReadAll; cbn. apply take_append. Qed.

Lemma cap_ReadAll (content : string) :
  MinRead <= slice.cap (ioutil_ReadAll content).
Proof.
  unfold slice.cap, ioutil_ReadAll; cbn [slice.array].
  rewrite length_append, length_zeros. lia.
Qed.

Lemma eqb_cons (a b : ascii) (s t : string) :
  String.eqb (String a s) (String b t) = Ascii.eqb a b && String.eqb s t.
Proof. cbn. now destruct (Ascii.eqb a b). Qed.

Lemma prefix_cons (a b : ascii) (p s : string) :
  String.prefix (String a p) (String b s)
  = Ascii.eqb a b && String.prefix p s.
Proof.
  cbn [String.prefix]. destruct (ascii_dec a b) as [->|N].
  - now rewrite Ascii.eqb_refl.
  - apply Ascii.eqb_neq in N. now rewrite N.
Qed.

(** The first three bytes of a byte sequence followed by zero bytes are
    the delimiter exactly when the sequence starts with it. *)
Lemma header_of_padded (content : string) (k : nat) :
  String.eqb (strings.take 3 (content ++ zeros k)) delimiter
  = strings.HasPrefix content delimiter.
Proof.
  unfold strings.HasPrefix, delimiter.
  destruct content as [|a [|b [|c r]]].
  - now destruct k.
  - destruct k; cbn [zeros append strings.take];
      rewrite !eqb_cons, !prefix_cons, 1?(Ascii.eqb_sym a);
      cbn; now rewrite ?andb_false_r.
  - destruct k; cbn [zeros append strings.take];
      rewrite !eqb_cons, !prefix_cons,
        1?(Ascii.eqb_sym a), 1?(Ascii.eqb_sym b);
      cbn; now rewrite ?andb_false_r.
  - cbn [zeros append strings.take].
    rewrite !eqb_cons, !prefix_cons,
      (Ascii.eqb_sym a), (Ascii.eqb_sym b), (Ascii.eqb_sym c).
    now destruct r.
Qed.

(** A slice whose text starts with three bytes has them in its array. *)
Lemma take_three (n : nat) (arr : string) (a b c : ascii) (t : string) :
  strings.take n arr = String a (String b (String c t)) ->
  3 <= n /\ 3 <= String.length arr
  /\ strings.take 3 arr = String a (String b (String c EmptyString)).
Proof.
  destruct n as [|[|[|n]]], arr as [|a' [|b' [|c' arr]]];
    cbn; try discriminate.
  intros [= -> -> -> _]. repeat split; lia.
Qed.

(** The parts [strings.Split] yields for a text that starts with the
    delimiter: an empty part, then the parts of the rest. *)
Lemma Split_delimited (t : string) :
  strings.Split (delimiter ++ t) delimiter
  = EmptyString :: strings.Split t delimiter.
Proof.
  unfold strings.Split. rewrite genSplit_eq by discriminate.
  rewrite Index_unfold, (prefix_append delimiter t).
  cbn [Nat.add strings.take]. now rewrite (drop_append delimiter t).
Qed.

Lemma Split_cut (t : string) :
  strings.Split t delimiter =
  match cut t delimiter with
  | Some (before, after) => before :: strings.Split after delimiter
  | None => [t]
  end.
Proof.
  unfold strings.Split, cut. rewrite genSplit_eq by discriminate.
  destruct (strings.Index t delimiter); [|reflexivity].
  now rewrite Nat.add_0_r.
Qed.

(** [headerParts[1]] is the text up to the second delimiter. *)
Lemma headerParts_1 (t : string) :
  index (strings.Split (delimiter ++ t) delimiter) 1
  = Ok (up_to t delimiter).
Proof.
  rewrite Split_delimited, Split_cut. unfold up_to.
  now destruct (cut t delimiter) as [[before after]|].
Qed.

(** [headerParts[2]] is the text between the second delimiter and the
    third, and is out of range when there is no second delimiter. *)
Lemma headerParts_2 (t : string) :
  index (strings.Split (delimiter ++ t) delimiter) 2 =
  match cut t delimiter with
  | Some (_, after) => Ok (up_to after delimiter)
  | None => Panic (index_out_of_range 2 2)
  end.
Proof.
  rewrite Split_delimited, Split_cut.
  destruct (cut t delimiter) as [[before after]|]; [|reflexivity].
  rewrite Split_cut. unfold up_to.
  now destruct (cut after delimiter) as [[before' after']|].
Qed.

(** The parser on a record whose text starts with the delimiter. *)
Lemma readHenryFileMetadata_delimited (file : HenryFile) (t : string) :
  slice.to_string (file_Data file) = delimiter ++ t ->
  readHenryFileMetadata file =
  let '(m, err) := toml_Decode (up_to t delimiter) metadata_zero in
  match err with
  | Some e =>
      Ok (set_Metadata (set_HasMetadata file false) (Some m),
          Some (MetadataParseError (file_Name file) e))
  | None =>
      match cut t delimiter with
      | Some (_, after) =>
          Ok (set_Body (set_Metadata (set_HasMetadata file true) (Some m))
                       (up_to after delimiter), None)
      | None => Panic (index_out_of_range 2 2)
      end
  end.
Proof.
  intros H. unfold readHenryFileMetadata.
  pose proof H as H3. unfold slice.to_string in H3.
  apply take_three in H3 as (Hlen & Hcap & Hhdr).
  destruct (slice.len (file_Data file) =? 0) eqn:E;
    [apply Nat.eqb_eq in E; lia|].
  cbn [set_Metadata set_HasMetadata file_Data file_Name].
  unfold slice.prefix, slice.cap.
  destruct (3 <=? String.length (slice.array (file_Data file))) eqn:E3;
    [|apply Nat.leb_gt in E3; lia].
  cbn [bind]. unfold slice.to_string at 1. cbn [slice.len slice.array].
  rewrite Hhdr. change (String.eqb "---" delimiter) with true. cbn [negb].
  rewrite H, headerParts_1, headerParts_2. cbn [bind].
  destruct (toml_Decode (up_to t delimiter) metadata_zero) as [m [e|]];
    [reflexivity|].
  now destruct (cut t delimiter) as [[before after]|].
Qed.

(** The parser on a record without bytes: nothing is assigned. *)
Lemma readHenryFileMetadata_empty (file : HenryFile) :
  slice.len (file_Data file) = 0 ->
  readHenryFileMetadata file = Ok (file, None).
Proof. intros H. unfold readHenryFileMetadata. now rewrite H. Qed.

(** On a record with bytes the parser allocates the metadata before it
    inspects them: whenever it returns, the pointer is set. *)
Lemma readHenryFileMetadata_allocates (file file' : HenryFile)
    (err : option error) :
  slice.len (file_Data file) <> 0 ->
  readHenryFileMetadata file = Ok (file', err) ->
  file_Metadata file' <> None.
Proof.
  intros Hlen. unfold readHenryFileMetadata.
  apply Nat.eqb_neq in Hlen. rewrite Hlen.
  destruct (slice.prefix _ 3) as [hdr|]; [|discriminate]. cbn [bind].
  destruct (negb _); [intros [= <- <-]; discriminate|].
  destruct (index _ 1) as [block|]; [|discriminate]. cbn [bind].
  destruct (toml_Decode block metadata_zero) as [m [e|]];
    [intros [= <- <-]; discriminate|].
  destruct (index _ 2) as [body|]; [|discriminate]. cbn [bind].
  intros [= <- <-]; discriminate.
Qed.

(** With bytes but a capacity below three, the read of the first three
    bytes panics. *)
Lemma readHenryFileMetadata_short_capacity (file : HenryFile) :
  slice.len (file_Data file) <> 0 ->
  slice.cap (file_Data file) < 3 ->
  readHenryFileMetadata file
  = Panic (slice_bounds_out_of_range 3 (slice.cap (file_Data file))).
Proof.
  intros Hlen Hcap. unfold readHenryFileMetadata.
  apply Nat.eqb_neq in Hlen. rewrite Hlen.
  cbn [set_Metadata set_HasMetadata file_Data]. unfold slice.prefix.
  apply Nat.leb_gt in Hcap. now rewrite Hcap.
Qed.

(** C4 (amended): for a file whose content starts with the delimiter,
    whose text between the first and the second delimiter decodes, the
    metadata is what the decoder gives for that text, has-metadata is set,
    and the body is the text after the second delimiter up to the third
    delimiter; it is all the text after the second delimiter when no
    further delimiter occurs in it. *)
Theorem front_matter_split (file : HenryFile) (t block after : string)
    (m : HenryFileMetadata) :
  slice.to_string (file_Data file) = delimiter ++ t ->
  cut t delimiter = Some (block, after) ->
  toml_Decode block metadata_zero = (m, None) ->
  exists file',
    readHenryFileMetadata file = Ok (file', None)
    /\ file_HasMetadata file' = true
    /\ file_Metadata file' = Some m
    /\ file_Body file' = up_to after delimiter
    /\ (cut after delimiter = None -> file_Body file' = after).
Proof.
  intros Hdata Hcut Hdec.
  rewrite (readHenryFileMetadata_delimited _ _ Hdata).
  unfold up_to at 1. rewrite Hcut, Hdec.
  eexists. split; [reflexivity|]. cbn. repeat split.
  intros Hnone. unfold up_to. now rewrite Hnone.
Qed.

(** C5: for a file whose content does not start with the delimiter (the
    empty file included), the parser returns without error, has-metadata
    is false and the body is the content. *)
Theorem no_delimiter_no_metadata (file : HenryFile) (content : string) :
  file_HasMetadata file = false ->
  file_Body file = EmptyString ->
  strings.HasPrefix content delimiter = false ->
  exists file',
    readHenryFileMetadata (set_Data file (ioutil_ReadAll content))
      = Ok (file', None)
    /\ file_HasMetadata file' = false
    /\ file_Body file' = content.
Proof.
  intros Hmeta Hbody Hprefix.
  destruct (String.length content) as [|n] eqn:L.
  - destruct content; [|discriminate].
    eexists. split; [now apply readHenryFileMetadata_empty|].
    cbn. now split.
  - unfold readHenryFileMetadata.
    cbn [file_Data set_Data set_HasMetadata set_Metadata].
    replace (slice.len (ioutil_ReadAll content)) with (S n)
      by (now rewrite <- L).
    cbn [Nat.eqb]. unfold slice.prefix.
    pose proof (cap_ReadAll content) as Hcap.
    destruct (3 <=? slice.cap (ioutil_ReadAll content)) eqn:E;
      [|apply Nat.leb_gt in E; unfold MinRead in Hcap; lia].
    cbn [bind]. unfold slice.to_string at 1.
    cbn [slice.len slice.array ioutil_ReadAll].
    rewrite header_of_padded, Hprefix. cbn [negb].
    eexists. split; [reflexivity|]. cbn [file_HasMetadata file_Body set_Body].
    split; [reflexivity|]. apply to_string_ReadAll.
Qed.

(** A front matter that is opened, decodes, and is never closed: the
    read of [headerParts[2]] is out of range. *)
Lemma unclosed_front_matter_index_panic (file : HenryFile) (t : string)
    (m : HenryFileMetadata) :
  slice.to_string (file_Data file) = delimiter ++ t ->
  cut t delimiter = None ->
  toml_Decode t metadata_zero = (m, None) ->
  readHenryFileMetadata file = Panic (index_out_of_range 2 2).
Proof.
  intros Hdata Hcut Hdec.
  rewrite (readHenryFileMetadata_delimited _ _ Hdata).
  unfold up_to. now rewrite Hcut, Hdec.
Qed.

(** The parser leaves the path of the record as it is. *)
Lemma readHenryFileMetadata_Path (file file' : HenryFile)
    (err : option error) :
  readHenryFileMetadata file = Ok (file', err) ->
  file_Path file' = file_Path file.
Proof.
  unfold readHenryFileMetadata.
  destruct (slice.len _ =? 0); [now intros [= <- <-]|].
  destruct (slice.prefix _ 3) as [hdr|]; [|discriminate]. cbn [bind].
  destruct (negb _); [now intros [= <- <-]|].
  destruct (index _ 1) as [block|]; [|discriminate]. cbn [bind].
  destruct (toml_Decode block metadata_zero) as [m [e|]];
    [now intros [= <- <-]|].
  destruct (index _ 2) as [body|]; [|discriminate]. cbn [bind].
  now intros [= <- <-].
Qed.

End FrontMatter.

(** ** Discovery and the whole run *)

Section Pipeline.

Context {libs : Libraries}.
Variable fs : FileSystem.
Variable rootPath : string.

(** A walk goes through a first stretch of visits and, unless that ends
    in an error or a panic, on through the rest. *)
Lemma Walk_app {S : Type} (pre rest : list visit)
    (walkFn : visit -> S -> result (S * option error)) (st : S) :
  Walk (pre ++ rest) walkFn st =
  '(st', err) <- Walk pre walkFn st ;;
  match err with
  | Some e => Ok (st', Some e)
  | None => Walk rest walkFn st'
  end.
Proof.
  revert st; induction pre as [|v pre IH]; intros st; [reflexivity|].
  cbn [Walk app]. destruct (walkFn v st) as [[st' [e|]]|p]; cbn [bind];
    auto.
Qed.

(** Over visits it accepts, the walk function appends what each visit
    collects, in the order of the visits. *)
Lemma Walk_collects (pre : list visit) (found : list (list HenryFile)) :
  Forall2 (collects fs rootPath) pre found ->
  forall foundFiles,
    Walk pre (findHenryFiles_walkFn fs rootPath) foundFiles
    = Ok ((foundFiles ++ concat found)%list, None).
Proof.
  induction 1 as [|v files pre found Hv _ IH]; intros foundFiles.
  - cbn. now rewrite app_nil_r.
  - destruct Hv as (Herr & info & Hinfo & Hfiles).
    cbn [Walk concat]. unfold findHenryFiles_walkFn at 1.
    rewrite Herr, Hinfo. cbn [deref bind].
    destruct (fi_IsDir info); cbn [negb].
    + subst files. cbn [bind app]. apply IH.
    + destruct Hfiles as (file & Hfile & ->). rewrite Hfile. cbn [bind].
      rewrite IH. now rewrite <- app_assoc.
Qed.

(** The analysis of a markdown file whose front matter does not decode
    returns the metadata parse error. *)
Lemma analyzeHenryFile_metadata_error (name path t : string)
    (m : HenryFileMetadata) (e : error) :
  strings.HasSuffix path ".md" = true ->
  fs_read fs path = inr (delimiter ++ t) ->
  toml_Decode (up_to t delimiter) metadata_zero = (m, Some e) ->
  exists file,
    analyzeHenryFile fs (new_HenryFile name path) rootPath
    = Ok (file, Some (MetadataParseError name e)).
Proof.
  intros Hmd Hread Hdec.
  unfold analyzeHenryFile, classifyHenryFile.
  cbn [new_HenryFile file_Path file_Name]. rewrite Hmd.
  cbn [set_Type set_SubPath file_Type file_Path file_Name file_SubPath
       file_Data file_Body file_HasMetadata file_Metadata file_Date].
  unfold readHenryFileData.
  cbn [file_Path file_Name set_SubPath set_Type new_HenryFile].
  rewrite Hread.
  erewrite readHenryFileMetadata_delimited
    by (cbn [set_Data file_Data]; apply to_string_ReadAll).
  rewrite Hdec. cbn [bind set_Data file_Name]. eexists. reflexivity.
Qed.

(** C1 (amended): when the files before a markdown file with an
    unparsable front-matter block are analyzed without error, discovery
    stops at that file: [findHenryFiles] returns the metadata parse error
    together with the records of the files before it only, in their
    order, and the run panics with that error; no Document collection is
    produced. *)
Theorem metadata_failure_stops_discovery (pre post : list visit)
    (found : list (list HenryFile)) (v : visit) (info : FileInfo)
    (t : string) (m : HenryFileMetadata) (e : error) :
  fs_walk fs rootPath = (pre ++ v :: post)%list ->
  Forall2 (collects fs rootPath) pre found ->
  v_err v = None ->
  v_info v = Some info ->
  fi_IsDir info = false ->
  strings.HasSuffix (v_path v) ".md" = true ->
  fs_read fs (v_path v) = inr (delimiter ++ t) ->
  toml_Decode (up_to t delimiter) metadata_zero = (m, Some e) ->
  findHenryFiles fs rootPath
    = Ok (concat found, Some (MetadataParseError (fi_Name info) e))
  /\ main_at fs rootPath
     = Panic (panic_error (MetadataParseError (fi_Name info) e)).
Proof.
  intros Hwalk Hpre Herr Hinfo Hdir Hmd Hread Hdec.
  assert (Hfind : findHenryFiles fs rootPath
            = Ok (concat found,
                  Some (MetadataParseError (fi_Name info) e))).
  { unfold findHenryFiles. rewrite Hwalk, Walk_app.
    rewrite (Walk_collects _ _ Hpre). cbn [bind app Walk].
    unfold findHenryFiles_walkFn at 1. rewrite Herr, Hinfo.
    cbn [deref bind]. rewrite Hdir. cbn [negb].
    destruct (analyzeHenryFile_metadata_error (fi_Name info) _ _ _ _
                Hmd Hread Hdec) as [file ->].
    reflexivity. }
  split; [exact Hfind|]. unfold main_at. now rewrite Hfind.
Qed.

(** The assembler keeps, in order, the document of every record whose
    metadata pointer is set. *)
Lemma createHenryDocuments_loop_all (files : list HenryFile)
    (docs : list HenryDocument) :
  Forall (fun file => file_Metadata file <> None) files ->
  exists docs',
    createHenryDocuments_loop files docs = Ok (docs ++ docs')%list
    /\ Forall2 (fun file doc => createHenryDocument file = Ok (doc, None))
               files docs'.
Proof.
  intros H; revert docs; induction H as [|file files Hm _ IH]; intros docs.
  - exists []. cbn. rewrite app_nil_r. split; [reflexivity|constructor].
  - destruct (file_Metadata file) as [m|] eqn:E; [|congruence].
    cbn [createHenryDocuments_loop].
    assert (exists doc, createHenryDocument file = Ok (doc, None))
      as [doc Hdoc] by (eexists; apply (createHenryDocument_Some _ _ E)).
    rewrite Hdoc. cbn [bind].
    destruct (IH (docs ++ [doc])%list) as (docs' & -> & Hall).
    exists (doc :: docs'). rewrite <- app_assoc. split; [reflexivity|].
    constructor; [exact Hdoc|exact Hall].
Qed.

(** A successful analysis stores the modification time [os.Stat] gives
    for the path of the record. *)
Lemma analyzeHenryFile_Date (file file' : HenryFile) :
  analyzeHenryFile fs file rootPath = Ok (file', None) ->
  exists info,
    fs_Stat fs (file_Path file) = inr info
    /\ file_Date file' = fi_ModTime info.
Proof.
  unfold analyzeHenryFile, classifyHenryFile.
  set (f1 := set_SubPath _ _).
  assert (P1 : file_Path f1 = file_Path file)
    by (unfold f1; now destruct (strings.HasSuffix _ _)).
  destruct (file_Type f1).
  - cbn [bind]. rewrite P1.
    destruct (fs_Stat fs (file_Path file)) as [e|info]; [discriminate|].
    intros [= <-]. now exists info.
  - unfold readHenryFileData.
    destruct (fs_read fs (file_Path f1)) as [e|content];
      [cbn [bind]; discriminate|].
    destruct (readHenryFileMetadata _) as [[f2 [e|]]|p] eqn:E;
      cbn [bind]; try discriminate.
    apply readHenryFileMetadata_Path in E. cbn [set_Data file_Path] in E.
    rewrite E, P1.
    destruct (fs_Stat fs (file_Path file)) as [e|info]; [discriminate|].
    intros [= <-]. now exists info.
Qed.

End Pipeline.

(** ** The date of a document *)

Section DocumentDate.

Context {libs : Libraries}.

(** An analysis that returns no error ends with [os.Stat] on the path of
    the record, which it has not changed, and stores the modification
    time. *)
Lemma analyzeHenryFile_stat (fs : FileSystem) (rootPath : string)
    (file0 file : HenryFile) :
  analyzeHenryFile fs file0 rootPath = Ok (file, None) ->
  file_Path file = file_Path file0
  /\ exists info,
       fs_Stat fs (file_Path file0) = inr info
       /\ file_Date file = fi_ModTime info.
Proof.
  unfold analyzeHenryFile, classifyHenryFile.
  set (f1 := set_SubPath _ _).
  assert (P1 : file_Path f1 = file_Path file0)
    by (unfold f1; now destruct (strings.HasSuffix _ _)).
  destruct (file_Type f1).
  - cbn [bind]. rewrite P1.
    destruct (fs_Stat fs (file_Path file0)) as [e|info]; [discriminate|].
    intros [= <-]. split; [exact P1|]. now exists info.
  - unfold readHenryFileData.
    destruct (fs_read fs (file_Path f1)) as [e|content];
      [cbn [bind]; discriminate|].
    destruct (readHenryFileMetadata _) as [[f2 [e|]]|p] eqn:E;
      cbn [bind]; try discriminate.
    apply readHenryFileMetadata_Path in E. cbn [set_Data file_Path] in E.
    rewrite E, P1.
    destruct (fs_Stat fs (file_Path file0)) as [e|info]; [discriminate|].
    intros [= <-]. split; [cbn [set_Date file_Path]; congruence|].
    now exists info.
Qed.

(** C8: the Document's date is the metadata date when that is not the
    zero value, and the date of the File Record otherwise; and the date of
    a File Record that [analyzeHenryFile] returned without error is the
    modification time [os.Stat] reports for the file's path, so that the
    Document's date is then that filesystem modification time. *)
Theorem date_resolution (file : HenryFile) (m : HenryFileMetadata) :
  file_Metadata file = Some m ->
  exists doc,
    createHenryDocument file = Ok (doc, None)
    /\ (IsZero (meta_Date m) = false -> doc_Date doc = meta_Date m)
    /\ (IsZero (meta_Date m) = true -> doc_Date doc = file_Date file)
    /\ forall (fs : FileSystem) (rootPath : string) (file0 : HenryFile),
         analyzeHenryFile fs file0 rootPath = Ok (file, None) ->
         exists info,
           fs_Stat fs (file_Path file0) = inr info
           /\ file_Date file = fi_ModTime info
           /\ (IsZero (meta_Date m) = true ->
               doc_Date doc = fi_ModTime info).
Proof.
  intros H. eexists. split; [apply (createHenryDocument_Some _ _ H)|].
  cbn [doc_Date].
  split; [destruct (IsZero (meta_Date m)); congruence|].
  split; [destruct (IsZero (meta_Date m)); congruence|].
  intros fs rootPath file0 A.
  destruct (analyzeHenryFile_stat _ _ _ _ A) as (_ & info & Hstat & Hdate).
  exists info. split; [exact Hstat|]. split; [exact Hdate|].
  intros Z. now rewrite Z.
Qed.

End DocumentDate.

(** ** The model on concrete files *)

Section Runs.

Import Examples.

(** C1 (as stated, refuted): of three markdown files whose second has an
    unparsable front-matter block, the first and the third alone give two
    documents, but the three together give none: discovery returns the
    first record with the parse error and the run panics. *)
Lemma batch_with_unparsable_file_aborts :
  main_at (libs := libs)
          (directory root [mkExample "a.md" hello_md noon;
                           mkExample "c.md" plain_md noon]) root
    = Ok [hello_doc; plain_doc]
  /\ findHenryFiles (libs := libs) (directory root three_files) root
     = Ok ([hello_file], Some (MetadataParseError "b.md" parse_error))
  /\ main_at (libs := libs) (directory root three_files) root
     = Panic (panic_error (MetadataParseError "b.md" parse_error))
  /\ main_at (libs := libs) (directory root three_files) root
     <> Ok [hello_doc; plain_doc].
Proof.
  repeat split; try (vm_compute; reflexivity).
  vm_compute. discriminate.
Qed.

Lemma metadata_failure_stops_discovery_witness :
  findHenryFiles (libs := libs) (directory root three_files) root
    = Ok ([hello_file], Some (MetadataParseError "b.md" parse_error))
  /\ main_at (libs := libs) (directory root three_files) root
     = Panic (panic_error (MetadataParseError "b.md" parse_error)).
Proof.
  apply (metadata_failure_stops_discovery (libs := libs)
           (directory root three_files) root
           [visit_root; visit_of "a.md"] [visit_of "c.md"]
           [[]; [hello_file]] (visit_of "b.md")
           (mkFileInfo "b.md" false noon)
           (nl ++ "title" ++ nl ++ "---" ++ nl ++ "Second post" ++ nl)
           metadata_zero parse_error).
  - vm_compute; reflexivity.
  - constructor.
    + split; [reflexivity|]. eexists; split; reflexivity.
    + constructor; [|constructor].
      split; [reflexivity|]. eexists; split; [reflexivity|].
      cbn [fi_IsDir]. exists hello_file.
      split; [vm_compute; reflexivity|reflexivity].
  - reflexivity.
  - reflexivity.
  - reflexivity.
  - vm_compute; reflexivity.
  - vm_compute; reflexivity.
  - vm_compute; reflexivity.
Defined.

(** C2 (the code at an empty markdown file): the parser returns before
    it allocates the metadata, the pointer stays nil, and the Document
    Builder panics when it reads the title through it. *)
Theorem empty_file_keeps_nil_metadata :
  readHenryFileMetadata (libs := libs) (loaded "empty.md" EmptyString)
    = Ok (loaded "empty.md" EmptyString, None)
  /\ file_Metadata (loaded "empty.md" EmptyString) = None
  /\ createHenryDocument (libs := libs) (loaded "empty.md" EmptyString)
     = Panic nil_dereference
  /\ main_at (libs := libs)
             (directory root [mkExample "empty.md" EmptyString noon]) root
     = Panic nil_dereference.
Proof. repeat split; vm_compute; reflexivity. Qed.

(** C3 (the code at a file whose front matter is opened and never
    closed): the block decodes and the read of [headerParts[2]] panics
    with an index out of range; so does the run over a directory that
    holds the file. *)
Theorem unclosed_front_matter_panics :
  readHenryFileMetadata (libs := libs) (loaded "post.md" unclosed_md)
    = Panic (index_out_of_range 2 2)
  /\ main_at (libs := libs)
             (directory root [mkExample "post.md" unclosed_md noon]) root
     = Panic (index_out_of_range 2 2).
Proof. split; vm_compute; reflexivity. Qed.

(** C4 (as stated, refuted): [rule_md] starts with the delimiter, its
    block decodes, and the text after its second delimiter holds a third
    one; the body is cut there and is not the text after the second
    delimiter. *)
Lemma body_stops_at_third_delimiter :
  rule_md = delimiter ++ rule_block ++ delimiter ++ rule_after
  /\ cut (rule_block ++ delimiter ++ rule_after) delimiter
     = Some (rule_block, rule_after)
  /\ toml_Decode (Libraries := libs) rule_block metadata_zero
     = (mkMetadata "Rule" Time_zero false EmptyString, None)
  /\ match readHenryFileMetadata (libs := libs) (loaded "rule.md" rule_md) with
     | Ok (file', None) =>
         file_Metadata file'
           = Some (mkMetadata "Rule" Time_zero false EmptyString)
         /\ file_Body file' = nl ++ "above" ++ nl
         /\ file_Body file' <> rule_after
     | _ => False
     end.
Proof.
  repeat split; try (vm_compute; reflexivity).
  vm_compute. discriminate.
Qed.

Lemma front_matter_split_witness :
  exists file',
    readHenryFileMetadata (libs := libs) (loaded "a.md" hello_md)
      = Ok (file', None)
    /\ file_HasMetadata file' = true
    /\ file_Metadata file'
       = Some (mkMetadata "Hello" Time_zero true EmptyString)
    /\ file_Body file' = up_to (nl ++ "First post" ++ nl) delimiter
    /\ (cut (nl ++ "First post" ++ nl) delimiter = None ->
        file_Body file' = nl ++ "First post" ++ nl).
Proof.
  apply (front_matter_split (libs := libs) (loaded "a.md" hello_md)
           (nl ++ "title = " ++ dq ++ "Hello" ++ dq ++ nl
               ++ "draft = true" ++ nl ++ "---" ++ nl ++ "First post" ++ nl)
           (nl ++ "title = " ++ dq ++ "Hello" ++ dq ++ nl
               ++ "draft = true" ++ nl)).
  - vm_compute; reflexivity.
  - vm_compute; reflexivity.
  - vm_compute; reflexivity.
Defined.

Lemma no_delimiter_no_metadata_witness :
  strings.HasPrefix "--" delimiter = false
  /\ exists file',
       readHenryFileMetadata (libs := libs)
         (set_Data (new_HenryFile "dash.md" "data/dash.md")
                   (ioutil_ReadAll (libs := libs) "--"))
         = Ok (file', None)
       /\ file_HasMetadata file' = false
       /\ file_Body file' = "--".
Proof.
  split; [reflexivity|].
  apply (no_delimiter_no_metadata (libs := libs)
           (new_HenryFile "dash.md" "data/dash.md") "--");
    reflexivity.
Defined.

Lemma summary_resolution_witness :
  file_Metadata hello_file
    = Some (mkMetadata "Hello" Time_zero true EmptyString)
  /\ exists doc,
       createHenryDocument (libs := libs) hello_file = Ok (doc, None)
       /\ doc_Summary doc = "<p>First post</p>"
       /\ doc_SummaryRaw doc = EmptyString.
Proof.
  split; [reflexivity|].
  destruct (summary_resolution (libs := libs) hello_file
              (mkMetadata "Hello" Time_zero true EmptyString) eq_refl)
    as (doc & Hdoc & _ & Hempty).
  assert (E : createHenryDocument (libs := libs) hello_file
              = Ok (hello_doc, None)) by (vm_compute; reflexivity).
  rewrite E in Hdoc. injection Hdoc as <-.
  exists hello_doc. split; [exact E|].
  destruct (Hempty eq_refl) as [Hraw Hfirst].
  split; [exact Hfirst|exact Hraw].
Defined.

Lemma title_resolution_witness :
  file_Metadata hello_file
    = Some (mkMetadata "Hello" Time_zero true EmptyString)
  /\ file_Metadata plain_file = Some metadata_zero
  /\ (exists doc,
        createHenryDocument (libs := libs) hello_file = Ok (doc, None)
        /\ doc_Title doc = "Hello")
  /\ (exists doc,
        createHenryDocument (libs := libs) plain_file = Ok (doc, None)
        /\ doc_Title doc = "c.md").
Proof.
  split; [reflexivity|]. split; [reflexivity|]. split.
  - destruct (title_resolution (libs := libs) hello_file _ eq_refl)
      as (doc & Hdoc & Hset & _).
    exists doc. split; [exact Hdoc|]. apply Hset. discriminate.
  - destruct (title_resolution (libs := libs) plain_file _ eq_refl)
      as (doc & Hdoc & _ & Hunset).
    exists doc. split; [exact Hdoc|]. now apply Hunset.
Defined.

Lemma date_resolution_witness :
  file_Metadata hello_file
    = Some (mkMetadata "Hello" Time_zero true EmptyString)
  /\ analyzeHenryFile (libs := libs) (directory root three_files)
       (new_HenryFile "a.md" "data/a.md") root = Ok (hello_file, None)
  /\ exists doc info,
       createHenryDocument (libs := libs) hello_file = Ok (doc, None)
       /\ fs_Stat (directory root three_files) "data/a.md" = inr info
       /\ fi_ModTime info = noon
       /\ doc_Date doc = fi_ModTime info.
Proof.
  assert (A : analyzeHenryFile (libs := libs) (directory root three_files)
                (new_HenryFile "a.md" "data/a.md") root
              = Ok (hello_file, None)) by (vm_compute; reflexivity).
  split; [reflexivity|]. split; [exact A|].
  destruct (date_resolution (libs := libs) hello_file _ eq_refl)
    as (doc & Hdoc & _ & _ & Hstat).
  destruct (Hstat _ _ _ A) as (info & Hinfo & Hdate & Hzero).
  exists doc, info. split; [exact Hdoc|]. split; [exact Hinfo|].
  split; [now rewrite <- Hdate|]. now apply Hzero.
Defined.

Lemma draft_resolution_witness :
  file_Metadata hello_file
    = Some (mkMetadata "Hello" Time_zero true EmptyString)
  /\ exists doc,
       createHenryDocument (libs := libs) hello_file = Ok (doc, None)
       /\ doc_Draft doc = true.
Proof.
  split; [reflexivity|].
  destruct (draft_resolution (libs := libs) hello_file _ eq_refl)
    as (_ & doc & Hdoc & Hdraft).
  exists doc. now split.
Defined.

Lemma paragraphs_newline_free_witness :
  createHenryDocument (libs := libs) hello_file = Ok (hello_doc, None)
  /\ Forall (fun paragraph => contains_byte newline paragraph = false)
            (doc_ContentParagraphs hello_doc).
Proof.
  assert (H : createHenryDocument (libs := libs) hello_file
              = Ok (hello_doc, None)) by (vm_compute; reflexivity).
  split; [exact H|].
  exact (proj2 (paragraphs_newline_free (libs := libs) _ _ _ H)).
Defined.

End Runs.


(** ** The File Classifier *)

Section Classifier.

Lemma take_drop (n : nat) (s : string) :
  strings.take n s ++ strings.drop n s = s.
Proof.
  revert s; induction n as [|n IH]; intros [|a s]; cbn; try reflexivity.
  now rewrite IH.
Qed.

(** [HasSuffix] holds exactly of the strings that end with the suffix. *)
Lemma HasSuffix_iff (s suffix : string) :
  strings.HasSuffix s suffix = true <-> exists p, s = p ++ suffix.
Proof.
  unfold strings.HasSuffix. split.
  - intros H. apply andb_prop in H as [_ H]. apply String.eqb_eq in H.
    set (n := String.length s - String.length suffix) in *.
    exists (strings.take n s). rewrite <- H. symmetry. apply take_drop.
  - intros [p ->]. rewrite length_append.
    replace (String.length p + String.length suffix - String.length suffix)
      with (String.length p) by lia.
    rewrite drop_append, String.eqb_refl, andb_true_r.
    apply Nat.leb_le. lia.
Qed.

Lemma TrimPrefix_append (p s : string) : strings.TrimPrefix (p ++ s) p = s.
Proof.
  unfold strings.TrimPrefix, strings.HasPrefix.
  now rewrite prefix_append, drop_append.
Qed.

Lemma TrimSuffix_append (p suffix : string) :
  strings.TrimSuffix (p ++ suffix) suffix = p.
Proof.
  unfold strings.TrimSuffix.
  replace (strings.HasSuffix (p ++ suffix) suffix) with true
    by (symmetry; apply HasSuffix_iff; now exists p).
  rewrite length_append.
  replace (String.length p + String.length suffix - String.length suffix)
    with (String.length p) by lia.
  apply take_append.
Qed.

(** The classifier returns no error, marks as markdown exactly the paths
    that end with [.md], and changes nothing but the type and the
    sub-path. *)
Theorem classify_markdown_iff_md_suffix (file : HenryFile)
    (rootPath : string) :
  let file' := fst (classifyHenryFile file rootPath) in
  snd (classifyHenryFile file rootPath) = None
  /\ (file_Type file' = HenryFileTypeMarkdown
      <-> exists stem, file_Path file = stem ++ ".md")
  /\ file_Name file' = file_Name file
  /\ file_Path file' = file_Path file
  /\ file_Data file' = file_Data file
  /\ file_Body file' = file_Body file
  /\ file_HasMetadata file' = file_HasMetadata file
  /\ file_Metadata file' = file_Metadata file
  /\ file_Date file' = file_Date file.
Proof.
  unfold classifyHenryFile. cbn [fst snd]. split; [reflexivity|].
  split.
  - rewrite <- HasSuffix_iff.
    destruct (strings.HasSuffix (file_Path file) ".md"); cbn;
      split; congruence.
  - now destruct (strings.HasSuffix (file_Path file) ".md").
Qed.

(** For a file found as [rootPath ++ dir ++ name], the sub-path is
    [dir]: the path without the root in front and the file name behind. *)
Theorem classify_SubPath_between_root_and_name (file : HenryFile)
    (rootPath dir : string) :
  file_Path file = rootPath ++ dir ++ file_Name file ->
  file_SubPath (fst (classifyHenryFile file rootPath)) = dir.
Proof.
  intros H. unfold classifyHenryFile. cbn [fst].
  replace (file_Path (if strings.HasSuffix (file_Path file) ".md"
                      then set_Type file HenryFileTypeMarkdown
                      else set_Type file HenryFileTypeUnknown))
    with (file_Path file)
    by now destruct (strings.HasSuffix (file_Path file) ".md").
  replace (file_Name (if strings.HasSuffix (file_Path file) ".md"
                      then set_Type file HenryFileTypeMarkdown
                      else set_Type file HenryFileTypeUnknown))
    with (file_Name file)
    by now destruct (strings.HasSuffix (file_Path file) ".md").
  cbn [set_SubPath file_SubPath].
  now rewrite H, TrimPrefix_append, TrimSuffix_append.
Qed.

Lemma classify_SubPath_between_root_and_name_witness :
  file_SubPath
    (fst (classifyHenryFile (new_HenryFile "post.md" "data/blog/post.md")
                            "data/")) = "blog/".
Proof.
  apply (classify_SubPath_between_root_and_name
           (new_HenryFile "post.md" "data/blog/post.md") "data/" "blog/").
  reflexivity.
Defined.

End Classifier.

(** ** Content and paragraphs *)

Section Paragraphs.

Context {libs : Libraries}.

Lemma Index_decompose (sep s : string) (i : nat) :
  strings.Index s sep = Some i ->
  s = strings.take i s ++ sep ++ strings.drop (i + String.length sep) s.
Proof.
  revert i; induction s as [|a s IH]; intros i; rewrite Index_unfold;
    destruct (String.prefix sep _) eqn:E; try discriminate.
  - intros [= <-]. now apply prefix_split in E.
  - intros [= <-]. now apply prefix_split in E.
  - destruct (strings.Index s sep) as [j|]; [|discriminate].
    intros [= <-]. cbn. f_equal. now apply IH.
Qed.

Lemma genSplit_not_nil (sep s : string) (sepSave : nat) :
  strings.genSplit s sep sepSave <> [].
Proof.
  unfold strings.genSplit.
  destruct (strings.Count s sep); cbn [strings.genSplit_loop];
    [discriminate|]. now destruct (strings.Index s sep).
Qed.

(** Joining the parts of [Split] with the separator gives the string
    back. *)
Lemma concat_Split (sep s : string) :
  sep <> EmptyString -> String.concat sep (strings.Split s sep) = s.
Proof.
  intros Hsep. remember (String.length s) as n eqn:L.
  assert (Hn : String.length s <= n) by lia. clear L.
  revert s Hn; induction n as [|n IH]; intros s Hn;
    unfold strings.Split in *; rewrite (genSplit_eq sep Hsep).
  - destruct s; [|simpl in Hn; lia]. now rewrite Index_empty.
  - destruct (strings.Index s sep) as [m|] eqn:E; [|reflexivity].
    pose proof (Index_bound _ _ _ E) as B.
    pose proof (length_sep sep Hsep) as B1.
    pose proof (genSplit_not_nil sep
                  (strings.drop (m + String.length sep) s) 0) as NN.
    cbn [String.concat].
    destruct (strings.genSplit _ sep 0) as [|x xs] eqn:G; [congruence|].
    rewrite <- G, IH by (rewrite length_drop; lia).
    rewrite Nat.add_0_r. symmetry. now apply Index_decompose.
Qed.

Lemma in_cutset_newline (a : ascii) :
  strings.in_cutset a nl = Ascii.eqb a newline.
Proof. cbn. apply orb_false_r. Qed.

Lemma TrimLeft_newline_free (q : string) :
  contains_byte newline q = false -> strings.TrimLeft q nl = q.
Proof.
  destruct q as [|a q]; [reflexivity|]. cbn [contains_byte strings.TrimLeft].
  intros H; apply orb_false_elim in H as [Ha _].
  now rewrite in_cutset_newline, Ha.
Qed.

Lemma TrimRight_newline_free (q : string) :
  contains_byte newline q = false -> strings.TrimRight q nl = q.
Proof.
  induction q as [|a q IH]; [reflexivity|].
  cbn [contains_byte strings.TrimRight].
  intros H; apply orb_false_elim in H as [Ha Hq].
  rewrite (IH Hq), in_cutset_newline, Ha. now destruct q.
Qed.

Lemma TrimRight_line (q : string) :
  contains_byte newline q = false -> strings.TrimRight (q ++ nl) nl = q.
Proof.
  induction q as [|a q IH]; [reflexivity|].
  cbn [contains_byte append strings.TrimRight].
  intros H; apply orb_false_elim in H as [Ha Hq].
  rewrite (IH Hq), in_cutset_newline, Ha. now destruct q.
Qed.

(** The piece [SplitAfter] cuts at the first newline is the line before
    it and the newline. *)
Lemma first_line (s : string) (m : nat) :
  strings.Index s nl = Some m ->
  contains_byte newline (strings.take m s) = false
  /\ strings.take (m + 1) s = strings.take m s ++ nl.
Proof.
  revert m; induction s as [|a s IH]; intros m.
  - rewrite Index_unfold. discriminate.
  - rewrite Index_unfold. unfold nl at 1. rewrite prefix_byte.
    destruct (Ascii.eqb a newline) eqn:E.
    + intros [= <-]. apply Ascii.eqb_eq in E. subst a. now split.
    + destruct (strings.Index s nl) as [j|]; [|discriminate].
      intros [= <-]. destruct (IH j eq_refl) as [H1 H2].
      cbn [strings.take Nat.add contains_byte append].
      rewrite E, H1, H2. now split.
Qed.

(** Splitting after each newline and trimming the pieces gives the lines:
    the parts between the newlines. *)
Lemma ContentParagraphs_Split (s : string) :
  ContentParagraphs s = strings.Split s nl.
Proof.
  unfold ContentParagraphs, strings.SplitAfter, strings.Split.
  remember (String.length s) as n eqn:L.
  assert (Hn : String.length s <= n) by lia. clear L.
  revert s Hn; induction n as [|n IH]; intros s Hn;
    rewrite !(genSplit_eq nl (byte_sep_nonempty newline)).
  - destruct s; [|simpl in Hn; lia]. now rewrite Index_empty.
  - destruct (strings.Index s nl) as [m|] eqn:E.
    + pose proof (Index_bound _ _ _ E) as B.
      destruct (first_line _ _ E) as [H1 H2].
      cbn [map]. rewrite IH by (rewrite length_drop; simpl in *; lia).
      f_equal. change (String.length nl) with 1. rewrite H2, Nat.add_0_r.
      unfold strings.Trim. rewrite (TrimRight_line _ H1).
      now apply TrimLeft_newline_free.
    + apply (Index_byte_None newline) in E. cbn [map]. f_equal.
      unfold strings.Trim. rewrite (TrimRight_newline_free _ E).
      now apply TrimLeft_newline_free.
Qed.

Lemma Split_cut_newline (s : string) :
  strings.Split s nl =
  match cut s nl with
  | Some (before, after) => before :: strings.Split after nl
  | None => [s]
  end.
Proof.
  unfold strings.Split, cut.
  rewrite (genSplit_eq nl (byte_sep_nonempty newline)).
  destruct (strings.Index s nl); [|reflexivity]. now rewrite Nat.add_0_r.
Qed.

(** In every document the paragraphs are the lines of the content, and
    joined with newlines they give the content back. *)
Theorem paragraphs_are_the_lines_of_content (file : HenryFile)
    (doc : HenryDocument) (err : option error) :
  createHenryDocument file = Ok (doc, err) ->
  doc_ContentParagraphs doc = strings.Split (doc_Content doc) nl
  /\ String.concat nl (doc_ContentParagraphs doc) = doc_Content doc.
Proof.
  intros H. destruct (createHenryDocument_Ok _ _ _ H) as [-> [m Hm]].
  rewrite (createHenryDocument_Some _ _ Hm) in H. injection H as <-.
  cbn [doc_ContentParagraphs doc_Content].
  rewrite ContentParagraphs_Split. split; [reflexivity|].
  apply concat_Split. discriminate.
Qed.

(** Without a metadata summary, the summary of the document is the first
    line of its content (the content up to its first newline), and the
    raw summary is empty: there is always a first paragraph. *)
Theorem summary_falls_back_to_first_line (file : HenryFile)
    (m : HenryFileMetadata) :
  file_Metadata file = Some m ->
  meta_Summary m = EmptyString ->
  exists doc,
    createHenryDocument file = Ok (doc, None)
    /\ doc_ContentParagraphs doc <> []
    /\ doc_Summary doc = up_to (doc_Content doc) nl
    /\ doc_SummaryRaw doc = EmptyString.
Proof.
  intros Hm Hs. eexists. split; [apply (createHenryDocument_Some _ _ Hm)|].
  cbn [doc_ContentParagraphs doc_Content doc_Summary doc_SummaryRaw].
  rewrite Hs. cbn [String.eqb fst snd].
  rewrite ContentParagraphs_Split, Split_cut_newline.
  unfold up_to. destruct (cut _ nl) as [[before after]|]; now repeat split.
Qed.

End Paragraphs.

Lemma paragraphs_are_the_lines_of_content_witness :
  createHenryDocument (libs := Examples.libs) Examples.hello_file
    = Ok (Examples.hello_doc, None)
  /\ String.concat nl (doc_ContentParagraphs Examples.hello_doc)
     = doc_Content Examples.hello_doc.
Proof.
  assert (H : createHenryDocument (libs := Examples.libs) Examples.hello_file
              = Ok (Examples.hello_doc, None)) by (vm_compute; reflexivity).
  split; [exact H|].
  exact (proj2 (paragraphs_are_the_lines_of_content
                  (libs := Examples.libs) _ _ _ H)).
Defined.

Lemma summary_falls_back_to_first_line_witness :
  exists doc,
    createHenryDocument (libs := Examples.libs) Examples.plain_file
      = Ok (doc, None)
    /\ doc_ContentParagraphs doc <> []
    /\ doc_Summary doc = up_to (doc_Content doc) nl
    /\ doc_SummaryRaw doc = EmptyString.
Proof.
  apply (summary_falls_back_to_first_line (libs := Examples.libs)
           Examples.plain_file metadata_zero); reflexivity.
Defined.

(** ** The content is trimmed *)

Section Content.

Context {libs : Libraries}.

Lemma append_assoc (s t u : string) : (s ++ t) ++ u = s ++ t ++ u.
Proof. induction s as [|a s IH]; cbn; [reflexivity|now rewrite IH]. Qed.

(** What [TrimRight] leaves does not end with a newline. *)
Lemma TrimRight_no_trailing_newline (s p : string) :
  strings.TrimRight s nl <> p ++ nl.
Proof.
  revert p; induction s as [|a s IH]; intros p; cbn [strings.TrimRight].
  - now destruct p.
  - destruct (strings.TrimRight s nl) as [|b r] eqn:E.
    + rewrite in_cutset_newline. destruct (Ascii.eqb a newline) eqn:Ea.
      * now destruct p.
      * destruct p as [|a' [|b' p]]; cbn; try discriminate.
        intros [= ->]. now rewrite Ascii.eqb_refl in Ea.
    + destruct p as [|a' p]; cbn; [discriminate|].
      intros [= -> H]. now apply (IH p).
Qed.

(** [TrimLeft] only drops bytes in front. *)
Lemma TrimLeft_drop (s cutset : string) :
  exists k, strings.TrimLeft s cutset = strings.drop k s.
Proof.
  induction s as [|a s [k IH]]; [now exists 0|]. cbn [strings.TrimLeft].
  destruct (strings.in_cutset a cutset); [now exists (S k)|now exists 0].
Qed.

Lemma TrimLeft_no_leading_newline (s : string) :
  strings.HasPrefix (strings.TrimLeft s nl) nl = false.
Proof.
  unfold strings.HasPrefix.
  induction s as [|a s IH]; [reflexivity|]. cbn [strings.TrimLeft].
  rewrite in_cutset_newline. destruct (Ascii.eqb a newline) eqn:E; [exact IH|].
  unfold nl. now rewrite prefix_byte.
Qed.

Lemma Trim_no_outer_newline (s : string) :
  strings.HasPrefix (strings.Trim s nl) nl = false
  /\ strings.HasSuffix (strings.Trim s nl) nl = false.
Proof.
  unfold strings.Trim. split; [apply TrimLeft_no_leading_newline|].
  destruct (strings.HasSuffix _ nl) eqn:E; [|reflexivity].
  apply HasSuffix_iff in E as [p Hp].
  destruct (TrimLeft_drop (strings.TrimRight s nl) nl) as [k Hk].
  exfalso. apply (TrimRight_no_trailing_newline s
                    (strings.take k (strings.TrimRight s nl) ++ p)).
  rewrite append_assoc, <- Hp, Hk. symmetry. apply take_drop.
Qed.

(** The content of a document neither starts nor ends with a newline, so
    neither its first nor its last paragraph is cut off an outer blank
    line. *)
Theorem content_has_no_outer_newline (file : HenryFile)
    (doc : HenryDocument) (err : option error) :
  createHenryDocument file = Ok (doc, err) ->
  strings.HasPrefix (doc_Content doc) nl = false
  /\ strings.HasSuffix (doc_Content doc) nl = false.
Proof.
  intros H. destruct (createHenryDocument_Ok _ _ _ H) as [-> [m Hm]].
  rewrite (createHenryDocument_Some _ _ Hm) in H. injection H as <-.
  cbn [doc_Content]. apply Trim_no_outer_newline.
Qed.

End Content.

Lemma content_has_no_outer_newline_witness :
  createHenryDocument (libs := Examples.libs) Examples.hello_file
    = Ok (Examples.hello_doc, None)
  /\ strings.HasPrefix (doc_Content Examples.hello_doc) nl = false
  /\ strings.HasSuffix (doc_Content Examples.hello_doc) nl = false.
Proof.
  assert (H : createHenryDocument (libs := Examples.libs) Examples.hello_file
              = Ok (Examples.hello_doc, None)) by (vm_compute; reflexivity).
  split; [exact H|].
  exact (content_has_no_outer_newline (libs := Examples.libs) _ _ _ H).
Defined.

(** ** More on the Front-Matter Parser *)

Section Parser.

Context {libs : Libraries}.

(** The parser assigns the body, the has-metadata flag and the metadata
    pointer only: name, path, sub-path, type, bytes and date stay. *)
Theorem parser_keeps_the_other_fields (file file' : HenryFile)
    (err : option error) :
  readHenryFileMetadata file = Ok (file', err) ->
  file_Name file' = file_Name file
  /\ file_Path file' = file_Path file
  /\ file_SubPath file' = file_SubPath file
  /\ file_Type file' = file_Type file
  /\ file_Data file' = file_Data file
  /\ file_Date file' = file_Date file.
Proof.
  unfold readHenryFileMetadata.
  destruct (slice.len _ =? 0); [now intros [= <- <-]|].
  destruct (slice.prefix _ 3) as [hdr|]; [|discriminate]. cbn [bind].
  destruct (negb _); [now intros [= <- <-]|].
  destruct (index _ 1) as [block|]; [|discriminate]. cbn [bind].
  destruct (toml_Decode block metadata_zero) as [m [e|]];
    [now intros [= <- <-]|].
  destruct (index _ 2) as [body|]; [|discriminate]. cbn [bind].
  now intros [= <- <-].
Qed.

(** Every error the parser returns is a metadata parse error that names
    the file and carries the decoder's reason; the record then has
    has-metadata false, its body as before, and its metadata pointer on the
    variable the decoder wrote to, in the state the decoder left it. *)
Theorem parser_errors_are_metadata_parse_errors (file file' : HenryFile)
    (e : error) :
  readHenryFileMetadata file = Ok (file', Some e) ->
  exists block m reason,
    toml_Decode block metadata_zero = (m, Some reason)
    /\ e = MetadataParseError (file_Name file) reason
    /\ file_HasMetadata file' = false
    /\ file_Metadata file' = Some m
    /\ file_Body file' = file_Body file.
Proof.
  unfold readHenryFileMetadata.
  destruct (slice.len _ =? 0); [discriminate|].
  destruct (slice.prefix _ 3) as [hdr|]; [|discriminate]. cbn [bind].
  destruct (negb _); [discriminate|].
  destruct (index _ 1) as [block|]; [|discriminate]. cbn [bind].
  destruct (toml_Decode block metadata_zero) as [m [reason|]] eqn:E.
  - intros [= <- <-]. exists block, m, reason. now repeat split.
  - destruct (index _ 2) as [body|]; discriminate.
Qed.

(** The parser on the bytes of a non-empty file that does not start with
    the delimiter. *)
Lemma readHenryFileMetadata_plain (file : HenryFile) (content : string) :
  content <> EmptyString ->
  strings.HasPrefix content delimiter = false ->
  readHenryFileMetadata (set_Data file (ioutil_ReadAll content))
  = Ok (set_Body
          (set_Metadata
             (set_HasMetadata (set_Data file (ioutil_ReadAll content)) false)
             (Some metadata_zero))
          content, None).
Proof.
  intros Hne Hprefix. unfold readHenryFileMetadata.
  cbn [file_Data set_Data set_HasMetadata set_Metadata].
  replace (slice.len (ioutil_ReadAll content)) with (String.length content)
    by reflexivity.
  destruct (String.length content =? 0) eqn:L.
  { apply Nat.eqb_eq in L. destruct content; [congruence|discriminate]. }
  unfold slice.prefix. pose proof (cap_ReadAll content) as Hcap.
  destruct (3 <=? slice.cap (ioutil_ReadAll content)) eqn:E;
    [|apply Nat.leb_gt in E; unfold MinRead in Hcap; lia].
  cbn [bind]. unfold slice.to_string at 1.
  cbn [slice.len slice.array ioutil_ReadAll].
  rewrite header_of_padded, Hprefix. cbn [negb].
  now rewrite to_string_ReadAll.
Qed.

(** Has-metadata is set only for a file that starts with the delimiter,
    holds a second one, and whose text between the two decodes; the
    metadata is then what the decoder gave. *)
Theorem has_metadata_only_after_decoding (file file' : HenryFile)
    (content : string) (err : option error) :
  file_HasMetadata file = false ->
  readHenryFileMetadata (set_Data file (ioutil_ReadAll content))
    = Ok (file', err) ->
  file_HasMetadata file' = true ->
  exists t block after m,
    content = delimiter ++ t
    /\ cut t delimiter = Some (block, after)
    /\ toml_Decode block metadata_zero = (m, None)
    /\ err = None
    /\ file_Metadata file' = Some m
    /\ file_Body file' = up_to after delimiter.
Proof.
  intros H0 Hrun Hflag.
  destruct content as [|a content'] eqn:Hc.
  { rewrite readHenryFileMetadata_empty in Hrun by reflexivity.
    injection Hrun as <- <-. cbn in Hflag. congruence. }
  rewrite <- Hc in *.
  destruct (strings.HasPrefix content delimiter) eqn:P.
  - apply prefix_split in P. set (t := strings.drop _ content) in P.
    rewrite (readHenryFileMetadata_delimited _ t) in Hrun
      by (cbn [set_Data file_Data]; now rewrite to_string_ReadAll).
    unfold up_to at 1 in Hrun.
    destruct (cut t delimiter) as [[block after]|] eqn:C.
    + destruct (toml_Decode block metadata_zero) as [m [e|]] eqn:D.
      * injection Hrun as <- <-. cbn in Hflag. discriminate.
      * injection Hrun as <- <-. exists t, block, after, m.
        now repeat split.
    + destruct (toml_Decode t metadata_zero) as [m [e|]] eqn:D;
        [|discriminate].
      injection Hrun as <- <-. cbn in Hflag. discriminate.
  - rewrite readHenryFileMetadata_plain in Hrun by (subst; congruence).
    injection Hrun as <- <-. cbn in Hflag. discriminate.
Qed.

End Parser.

Lemma parser_keeps_the_other_fields_witness :
  file_Name Examples.hello_parsed = "a.md"
  /\ file_Path Examples.hello_parsed = "data/a.md"
  /\ file_SubPath Examples.hello_parsed = EmptyString
  /\ file_Type Examples.hello_parsed = HenryFileTypeMarkdown
  /\ file_Data Examples.hello_parsed
     = ioutil_ReadAll (libs := Examples.libs) Examples.hello_md
  /\ file_Date Examples.hello_parsed = Time_zero.
Proof.
  apply (parser_keeps_the_other_fields (libs := Examples.libs)
           (Examples.loaded "a.md" Examples.hello_md) Examples.hello_parsed
           None).
  vm_compute; reflexivity.
Defined.

Lemma parser_errors_are_metadata_parse_errors_witness :
  exists block m reason,
    toml_Decode (Libraries := Examples.libs) block metadata_zero
      = (m, Some reason)
    /\ MetadataParseError "b.md" Examples.parse_error
       = MetadataParseError "b.md" reason
    /\ false = false
    /\ Some metadata_zero = Some m
    /\ EmptyString = EmptyString.
Proof.
  apply (parser_errors_are_metadata_parse_errors (libs := Examples.libs)
           (Examples.loaded "b.md" Examples.broken_md)
           (set_Metadata
              (set_HasMetadata (Examples.loaded "b.md" Examples.broken_md)
                               false)
              (Some metadata_zero))
           (MetadataParseError "b.md" Examples.parse_error)).
  vm_compute; reflexivity.
Defined.

Lemma has_metadata_only_after_decoding_witness :
  exists t block after m,
    Examples.hello_md = delimiter ++ t
    /\ cut t delimiter = Some (block, after)
    /\ toml_Decode (Libraries := Examples.libs) block metadata_zero
       = (m, None)
    /\ @None error = None
    /\ file_Metadata Examples.hello_parsed = Some m
    /\ file_Body Examples.hello_parsed = up_to after delimiter.
Proof.
  apply (has_metadata_only_after_decoding (libs := Examples.libs)
           (fst (classifyHenryFile
                   (new_HenryFile "a.md" (Examples.root ++ "a.md"))
                   Examples.root))
           Examples.hello_parsed Examples.hello_md None).
  - reflexivity.
  - vm_compute; reflexivity.
  - reflexivity.
Defined.

Lemma unclosed_front_matter_index_panic_witness :
  readHenryFileMetadata (libs := Examples.libs)
    (Examples.loaded "post.md" Examples.unclosed_md)
  = Panic (index_out_of_range 2 2).
Proof.
  apply (unclosed_front_matter_index_panic (libs := Examples.libs)
           (Examples.loaded "post.md" Examples.unclosed_md)
           (nl ++ "title = " ++ Examples.dq ++ "Hello" ++ Examples.dq ++ nl)
           (mkMetadata "Hello" Time_zero false EmptyString));
    vm_compute; reflexivity.
Defined.

Lemma readHenryFileMetadata_short_capacity_witness :
  readHenryFileMetadata (libs := Examples.libs)
    (set_Data (new_HenryFile "dash.md" "data/dash.md") (slice.mk "-" 1))
  = Panic (slice_bounds_out_of_range 3 1).
Proof.
  apply (readHenryFileMetadata_short_capacity (libs := Examples.libs)
           (set_Data (new_HenryFile "dash.md" "data/dash.md")
                     (slice.mk "-" 1))).
  - cbn. discriminate.
  - cbn. lia.
Defined.

Lemma analyzeHenryFile_Date_witness :
  exists info,
    fs_Stat (Examples.directory Examples.root Examples.three_files)
            "data/a.md" = inr info
    /\ file_Date Examples.hello_file = fi_ModTime info.
Proof.
  apply (analyzeHenryFile_Date (libs := Examples.libs)
           (Examples.directory Examples.root Examples.three_files)
           Examples.root (new_HenryFile "a.md" "data/a.md")
           Examples.hello_file).
  vm_compute; reflexivity.
Defined.

(** ** Analysis, discovery and assembly *)

Section Discovery.

Context {libs : Libraries}.
Variable fs : FileSystem.
Variable rootPath : string.

(** The analysis of a file that is not markdown: classification, then
    [os.Stat]. *)
Lemma analyzeHenryFile_unknown (name path : string) :
  strings.HasSuffix path ".md" = false ->
  let file := fst (classifyHenryFile (new_HenryFile name path) rootPath) in
  analyzeHenryFile fs (new_HenryFile name path) rootPath =
  match fs_Stat fs path with
  | inl e => Ok (file, Some e)
  | inr info => Ok (set_Date file (fi_ModTime info), None)
  end.
Proof.
  intros H. unfold analyzeHenryFile, classifyHenryFile.
  cbn [new_HenryFile file_Path file_Name fst]. rewrite H.
  cbn [set_Type set_SubPath file_Type file_Path bind].
  reflexivity.
Qed.

(** The analysis of a markdown file up to the parser. *)
Lemma analyzeHenryFile_markdown (name path : string) :
  strings.HasSuffix path ".md" = true ->
  let file := fst (classifyHenryFile (new_HenryFile name path) rootPath) in
  analyzeHenryFile fs (new_HenryFile name path) rootPath =
  match fs_read fs path with
  | inl e => Ok (file, Some e)
  | inr content =>
      '(file', err) <-
        readHenryFileMetadata (set_Data file (ioutil_ReadAll content)) ;;
      match err with
      | Some e => Ok (file', Some e)
      | None =>
          match fs_Stat fs (file_Path file') with
          | inl e => Ok (file', Some e)
          | inr info => Ok (set_Date file' (fi_ModTime info), None)
          end
      end
  end.
Proof.
  intros H. unfold analyzeHenryFile, classifyHenryFile, readHenryFileData.
  cbn [new_HenryFile file_Path file_Name fst]. rewrite H.
  cbn [set_Type set_SubPath file_Type file_Path].
  change (file_Path (new_HenryFile name path)) with path.
  now destruct (fs_read fs path).
Qed.

(** A file that is not markdown is never read: whatever its bytes, its
    record keeps a nil slice, an empty body, has-metadata false and a nil
    metadata pointer; the only error its analysis can return is that of
    [os.Stat]. *)
Theorem non_markdown_files_are_not_read (name path : string) :
  strings.HasSuffix path ".md" = false ->
  exists file err,
    analyzeHenryFile fs (new_HenryFile name path) rootPath = Ok (file, err)
    /\ err = match fs_Stat fs path with inl e => Some e | inr _ => None end
    /\ file_Type file = HenryFileTypeUnknown
    /\ file_Data file = slice.nil
    /\ file_Body file = EmptyString
    /\ file_HasMetadata file = false
    /\ file_Metadata file = None.
Proof.
  intros H. rewrite (analyzeHenryFile_unknown _ _ H).
  unfold classifyHenryFile. cbn [new_HenryFile file_Path file_Name fst].
  rewrite H.
  destruct (fs_Stat fs path); do 2 eexists; (split; [reflexivity|]);
    now repeat split.
Qed.

(** A markdown file that cannot be read: the analysis returns the read
    error, whatever [os.Stat] would say, and the record has no bytes, no
    body and no metadata. *)
Theorem read_error_is_returned (name path : string) (e : error) :
  strings.HasSuffix path ".md" = true ->
  fs_read fs path = inl e ->
  exists file,
    analyzeHenryFile fs (new_HenryFile name path) rootPath
      = Ok (file, Some e)
    /\ file_Data file = slice.nil
    /\ file_Body file = EmptyString
    /\ file_Metadata file = None.
Proof.
  intros H R. rewrite (analyzeHenryFile_markdown _ _ H), R.
  eexists. split; [reflexivity|].
  unfold classifyHenryFile. cbn [new_HenryFile file_Path file_Name fst].
  rewrite H. now repeat split.
Qed.

(** A record whose analysis returned no error has a nil metadata pointer
    when the file is not markdown or has no bytes. *)
Lemma analyzeHenryFile_nil_metadata (name path : string) (file : HenryFile) :
  analyzeHenryFile fs (new_HenryFile name path) rootPath = Ok (file, None) ->
  strings.HasSuffix path ".md" = false \/ fs_read fs path = inr EmptyString ->
  file_Metadata file = None.
Proof.
  intros A. destruct (strings.HasSuffix path ".md") eqn:H.
  - intros [N|R]; [discriminate|].
    rewrite (analyzeHenryFile_markdown _ _ H), R in A.
    rewrite readHenryFileMetadata_empty in A by reflexivity.
    cbn [bind] in A.
    destruct (fs_Stat fs _); [discriminate|]. injection A as <-.
    unfold classifyHenryFile. cbn [new_HenryFile file_Path file_Name fst].
    now rewrite H.
  - intros _. rewrite (analyzeHenryFile_unknown _ _ H) in A.
    destruct (fs_Stat fs path); [discriminate|]. injection A as <-.
    unfold classifyHenryFile. cbn [new_HenryFile file_Path file_Name fst].
    now rewrite H.
Qed.

(** After an analysis without error, the metadata pointer is nil exactly
    when the file is not markdown or is an empty markdown file. *)
Theorem analyzed_metadata_is_nil_iff (name path : string)
    (file : HenryFile) :
  analyzeHenryFile fs (new_HenryFile name path) rootPath = Ok (file, None) ->
  file_Metadata file = None
  <-> strings.HasSuffix path ".md" = false
      \/ fs_read fs path = inr EmptyString.
Proof.
  intros A. split; [|exact (analyzeHenryFile_nil_metadata _ _ _ A)].
  intros Hnil. destruct (strings.HasSuffix path ".md") eqn:H; [|now left].
  right. rewrite (analyzeHenryFile_markdown _ _ H) in A.
  destruct (fs_read fs path) as [e|content]; [discriminate|].
  destruct content as [|a content]; [reflexivity|]. exfalso.
  destruct (readHenryFileMetadata _) as [[file' [e|]]|p] eqn:R;
    cbn [bind] in A; try discriminate.
  apply readHenryFileMetadata_allocates in R; [|discriminate].
  destruct (fs_Stat fs _); [discriminate|]. injection A as <-.
  now apply R.
Qed.

(** When the walk function accepts every visit, discovery returns no
    error and the records of all files, in the order of the walk;
    directories add nothing. *)
Theorem discovery_collects_every_file (found : list (list HenryFile)) :
  Forall2 (collects fs rootPath) (fs_walk fs rootPath) found ->
  findHenryFiles fs rootPath = Ok (concat found, None).
Proof.
  intros H. unfold findHenryFiles. now rewrite (Walk_collects _ _ _ _ H).
Qed.

(** What discovery and the run do when the walk function returns an
    error at a visit after accepting the visits before it. *)
Lemma discovery_stops (pre post : list visit) (found : list (list HenryFile))
    (v : visit) (e : error) :
  fs_walk fs rootPath = (pre ++ v :: post)%list ->
  Forall2 (collects fs rootPath) pre found ->
  findHenryFiles_walkFn fs rootPath v (concat found)
    = Ok (concat found, Some e) ->
  findHenryFiles fs rootPath = Ok (concat found, Some e)
  /\ main_at fs rootPath = Panic (panic_error e).
Proof.
  intros Hwalk Hpre Hv.
  assert (F : findHenryFiles fs rootPath = Ok (concat found, Some e)).
  { unfold findHenryFiles.
    rewrite Hwalk, Walk_app, (Walk_collects _ _ _ _ Hpre).
    cbn [bind app Walk]. now rewrite Hv. }
  split; [exact F|]. unfold main_at. now rewrite F.
Qed.

(** An error the walk hands to the walk function (an unreadable
    directory, a failed [lstat]) stops discovery: the records found so far
    come back with the error, and the run panics with it. *)
Theorem walk_error_stops_discovery (pre post : list visit)
    (found : list (list HenryFile)) (v : visit) (e : error) :
  fs_walk fs rootPath = (pre ++ v :: post)%list ->
  Forall2 (collects fs rootPath) pre found ->
  v_err v = Some e ->
  findHenryFiles fs rootPath = Ok (concat found, Some e)
  /\ main_at fs rootPath = Panic (panic_error e).
Proof.
  intros Hwalk Hpre Herr. apply (discovery_stops pre post found v e);
    try assumption.
  unfold findHenryFiles_walkFn. now rewrite Herr.
Qed.

(** Any error of the analysis of a file (read, metadata or stat) stops
    discovery at that file: the records of the files before it come back
    with the error, the file itself and the files after it are left out,
    and the run panics with the error. *)
Theorem analysis_error_stops_discovery (pre post : list visit)
    (found : list (list HenryFile)) (v : visit) (info : FileInfo)
    (file : HenryFile) (e : error) :
  fs_walk fs rootPath = (pre ++ v :: post)%list ->
  Forall2 (collects fs rootPath) pre found ->
  v_err v = None ->
  v_info v = Some info ->
  fi_IsDir info = false ->
  analyzeHenryFile fs (new_HenryFile (fi_Name info) (v_path v)) rootPath
    = Ok (file, Some e) ->
  findHenryFiles fs rootPath = Ok (concat found, Some e)
  /\ main_at fs rootPath = Panic (panic_error e).
Proof.
  intros Hwalk Hpre Herr Hinfo Hdir Ha.
  apply (discovery_stops pre post found v e); try assumption.
  unfold findHenryFiles_walkFn. rewrite Herr, Hinfo. cbn [deref bind].
  rewrite Hdir. cbn [negb]. now rewrite Ha.
Qed.

(** A panic of the analysis of a file ends discovery and the run with
    that panic. *)
Theorem analysis_panic_ends_the_run (pre post : list visit)
    (found : list (list HenryFile)) (v : visit) (info : FileInfo)
    (p : panic) :
  fs_walk fs rootPath = (pre ++ v :: post)%list ->
  Forall2 (collects fs rootPath) pre found ->
  v_err v = None ->
  v_info v = Some info ->
  fi_IsDir info = false ->
  analyzeHenryFile fs (new_HenryFile (fi_Name info) (v_path v)) rootPath
    = Panic p ->
  findHenryFiles fs rootPath = Panic p
  /\ main_at fs rootPath = Panic p.
Proof.
  intros Hwalk Hpre Herr Hinfo Hdir Ha.
  assert (F : findHenryFiles fs rootPath = Panic p).
  { unfold findHenryFiles.
    rewrite Hwalk, Walk_app, (Walk_collects _ _ _ _ Hpre).
    cbn [bind app Walk]. unfold findHenryFiles_walkFn.
    rewrite Herr, Hinfo. cbn [deref bind]. rewrite Hdir. cbn [negb].
    now rewrite Ha. }
  split; [exact F|]. unfold main_at. now rewrite F.
Qed.

End Discovery.

(** ** The assembler and the whole run *)

Section Assembly.

Context {libs : Libraries}.

(** The loop of the assembler, when it returns, has appended one document
    per record, in order. *)
Lemma createHenryDocuments_loop_Ok (files : list HenryFile)
    (docs out : list HenryDocument) :
  createHenryDocuments_loop files docs = Ok out ->
  exists docs',
    out = (docs ++ docs')%list
    /\ Forall2 (fun file doc => createHenryDocument file = Ok (doc, None))
               files docs'.
Proof.
  revert docs; induction files as [|file files IH]; intros docs.
  - intros [= <-]. exists []. now rewrite app_nil_r.
  - cbn [createHenryDocuments_loop].
    destruct (createHenryDocument file) as [[doc err]|p] eqn:E;
      [|discriminate]. cbn [bind].
    destruct (createHenryDocument_Ok _ _ _ E) as [-> _].
    intros H. apply IH in H as (docs' & -> & Hall).
    exists (doc :: docs'). rewrite <- app_assoc. split; [reflexivity|].
    now constructor.
Qed.

(** The loop of the assembler panics at the first record whose metadata
    pointer is nil. *)
Lemma createHenryDocuments_loop_nil (files : list HenryFile) :
  Exists (fun file => file_Metadata file = None) files ->
  forall docs, createHenryDocuments_loop files docs = Panic nil_dereference.
Proof.
  induction files as [|file files IH]; intros H docs; [inversion H|].
  cbn [createHenryDocuments_loop].
  destruct (file_Metadata file) as [m|] eqn:E.
  - assert (exists doc, createHenryDocument file = Ok (doc, None))
      as [doc ->] by (eexists; apply (createHenryDocument_Some _ _ E)).
    cbn [bind]. apply IH. inversion H; subst; [congruence|assumption].
  - now rewrite (createHenryDocument_nil _ E).
Qed.

(** The assembler never skips a record and never returns an error: when
    it returns, there is exactly one document per record, in the order of
    the records, each the document of its record. *)
Theorem assembler_never_skips (files : list HenryFile)
    (docs : list HenryDocument) (err : option error) :
  createHenryDocuments files = Ok (docs, err) ->
  err = None
  /\ List.length docs = List.length files
  /\ Forall2 (fun file doc => createHenryDocument file = Ok (doc, None))
             files docs.
Proof.
  unfold createHenryDocuments.
  destruct (createHenryDocuments_loop files []) as [out|p] eqn:E;
    [|discriminate]. cbn [bind]. intros [= <- <-].
  apply createHenryDocuments_loop_Ok in E as (docs' & -> & Hall).
  cbn [app]. split; [reflexivity|]. split; [|exact Hall].
  symmetry. now apply Forall2_length in Hall.
Qed.

(** The assembler panics with a nil dereference exactly when some record
    has a nil metadata pointer. *)
Theorem assembler_panics_iff_nil_metadata (files : list HenryFile) :
  createHenryDocuments files = Panic nil_dereference
  <-> Exists (fun file => file_Metadata file = None) files.
Proof.
  unfold createHenryDocuments. split.
  - intros H. destruct (Exists_dec (fun file => file_Metadata file = None)
                          files) as [Y|N]; [| exact Y |].
    + intros file. destruct (file_Metadata file); [right|left]; congruence.
    + exfalso. apply Forall_Exists_neg in N.
      destruct (createHenryDocuments_loop_all files [] N) as (docs & E & _).
      rewrite E in H. discriminate.
  - intros H. now rewrite (createHenryDocuments_loop_nil _ H).
Qed.

Variable fs : FileSystem.
Variable rootPath : string.

Lemma Forall2_In_left {A B : Type} (R : A -> B -> Prop) (l : list A)
    (l' : list B) (x : A) :
  Forall2 R l l' -> In x l -> exists y, In y l' /\ R x y.
Proof.
  induction 1 as [|a b l l' Hab _ IH]; [intros []|].
  intros [<-|Hin]; [exists b; split; [now left|assumption]|].
  destruct (IH Hin) as (y & Hy & Hxy). exists y. split; [now right|assumption].
Qed.

(** When every visit is accepted and every record found has its metadata
    pointer set, the run returns one document per file found, in the order
    of the walk. *)
Theorem run_returns_one_document_per_file (found : list (list HenryFile)) :
  Forall2 (collects fs rootPath) (fs_walk fs rootPath) found ->
  Forall (fun file => file_Metadata file <> None) (concat found) ->
  exists docs,
    main_at fs rootPath = Ok docs
    /\ Forall2 (fun file doc => createHenryDocument file = Ok (doc, None))
               (concat found) docs.
Proof.
  intros Hwalk Hmeta. unfold main_at, findHenryFiles.
  rewrite (Walk_collects _ _ _ _ Hwalk). cbn [bind app].
  unfold createHenryDocuments.
  destruct (createHenryDocuments_loop_all (concat found) [] Hmeta)
    as (docs & -> & Hall).
  cbn [bind app]. now exists docs.
Qed.

(** A walk that is accepted throughout and meets a file that is not
    markdown, or a markdown file without bytes, makes the run panic with a
    nil dereference: the assembler builds a document for every record
    found, and that record has no metadata. *)
Theorem file_without_metadata_panics_the_run
    (found : list (list HenryFile)) (v : visit) (info : FileInfo) :
  Forall2 (collects fs rootPath) (fs_walk fs rootPath) found ->
  In v (fs_walk fs rootPath) ->
  v_info v = Some info ->
  fi_IsDir info = false ->
  strings.HasSuffix (v_path v) ".md" = false
  \/ fs_read fs (v_path v) = inr EmptyString ->
  main_at fs rootPath = Panic nil_dereference.
Proof.
  intros Hwalk Hin Hinfo Hdir Hkind.
  destruct (Forall2_In_left _ _ _ _ Hwalk Hin)
    as (files & Hfiles & _ & info' & Hinfo' & Hv).
  rewrite Hinfo in Hinfo'. injection Hinfo' as <-. rewrite Hdir in Hv.
  destruct Hv as (file & Hfile & ->).
  pose proof (analyzeHenryFile_nil_metadata _ _ _ _ _ Hfile Hkind) as Hnil.
  unfold main_at, findHenryFiles.
  rewrite (Walk_collects _ _ _ _ Hwalk). cbn [bind app].
  unfold createHenryDocuments.
  rewrite createHenryDocuments_loop_nil; [reflexivity|].
  apply Exists_exists. exists file. split; [|exact Hnil].
  apply in_concat. exists [file]. split; [exact Hfiles|now left].
Qed.

(** A non-empty markdown file without front matter: its analysis
    succeeds when [os.Stat] does, and its document is titled by the file
    name, dated by the modification time, not a draft, and has the whole
    file as raw content. *)
Theorem plain_markdown_document (name path content : string)
    (info : FileInfo) :
  strings.HasSuffix path ".md" = true ->
  fs_read fs path = inr content ->
  content <> EmptyString ->
  strings.HasPrefix content delimiter = false ->
  fs_Stat fs path = inr info ->
  exists file doc,
    analyzeHenryFile fs (new_HenryFile name path) rootPath = Ok (file, None)
    /\ createHenryDocument file = Ok (doc, None)
    /\ file_HasMetadata file = false
    /\ doc_Title doc = name
    /\ doc_Date doc = fi_ModTime info
    /\ doc_Draft doc = false
    /\ doc_ContentRaw doc = content.
Proof.
  intros Hmd Hread Hne Hprefix Hstat.
  rewrite (analyzeHenryFile_markdown _ _ _ _ Hmd), Hread.
  rewrite (readHenryFileMetadata_plain _ _ Hne Hprefix). cbn [bind].
  unfold classifyHenryFile. cbn [new_HenryFile file_Path file_Name fst].
  rewrite Hmd.
  cbn [set_Type set_SubPath set_Data set_HasMetadata set_Metadata set_Body
       file_Path].
  change (file_Path (new_HenryFile name path)) with path.
  rewrite Hstat. do 2 eexists. split; [reflexivity|].
  split; [apply createHenryDocument_Some; reflexivity|].
  now repeat split.
Qed.

End Assembly.

(** ** The analysis, discovery and the run on concrete directories *)

Section MoreRuns.

Import Examples.

(** A visit of a directory is accepted and adds nothing. *)
Ltac accept_directory :=
  split; [reflexivity|]; eexists; split; reflexivity.

(** A visit of a file is accepted and adds the record [f]. *)
Ltac accept_file f :=
  split; [reflexivity|]; eexists; split; [reflexivity|];
  cbn [fi_IsDir]; exists f; split; [vm_compute; reflexivity|reflexivity].

Lemma non_markdown_files_are_not_read_witness :
  exists file err,
    analyzeHenryFile (libs := libs) (directory root mixed_files)
      (new_HenryFile "notes.txt" "data/notes.txt") root = Ok (file, err)
    /\ err = match fs_Stat (directory root mixed_files) "data/notes.txt" with
             | inl e => Some e
             | inr _ => None
             end
    /\ file_Type file = HenryFileTypeUnknown
    /\ file_Data file = slice.nil
    /\ file_Body file = EmptyString
    /\ file_HasMetadata file = false
    /\ file_Metadata file = None.
Proof.
  apply (non_markdown_files_are_not_read (libs := libs)
           (directory root mixed_files) root "notes.txt" "data/notes.txt").
  reflexivity.
Defined.

Lemma read_error_is_returned_witness :
  exists file,
    analyzeHenryFile (libs := libs) unreadable
      (new_HenryFile "a.md" "data/a.md") root
      = Ok (file, Some "open: permission denied")
    /\ file_Data file = slice.nil
    /\ file_Body file = EmptyString
    /\ file_Metadata file = None.
Proof.
  apply (read_error_is_returned (libs := libs) unreadable root
           "a.md" "data/a.md" "open: permission denied"); reflexivity.
Defined.

Lemma analyzed_metadata_is_nil_iff_witness :
  file_Metadata notes_file = None
  <-> strings.HasSuffix "data/notes.txt" ".md" = false
      \/ fs_read (directory root mixed_files) "data/notes.txt"
         = inr EmptyString.
Proof.
  apply (analyzed_metadata_is_nil_iff (libs := libs)
           (directory root mixed_files) root "notes.txt" "data/notes.txt"
           notes_file).
  vm_compute; reflexivity.
Defined.

Lemma discovery_collects_every_file_witness :
  findHenryFiles (libs := libs)
    (directory root [mkExample "a.md" hello_md noon;
                     mkExample "c.md" plain_md noon]) root
  = Ok ([hello_file; plain_file], None).
Proof.
  apply (discovery_collects_every_file (libs := libs)
           (directory root [mkExample "a.md" hello_md noon;
                            mkExample "c.md" plain_md noon]) root
           [[]; [hello_file]; [plain_file]]).
  change (fs_walk _ root) with [visit_root; visit_of "a.md"; visit_of "c.md"].
  constructor; [accept_directory|].
  constructor; [accept_file hello_file|].
  constructor; [accept_file plain_file|constructor].
Defined.

Lemma walk_error_stops_discovery_witness :
  findHenryFiles (libs := libs) (directory root three_files) "nowhere/"
    = Ok ([], Some "lstat: no such file or directory")
  /\ main_at (libs := libs) (directory root three_files) "nowhere/"
     = Panic (panic_error "lstat: no such file or directory").
Proof.
  apply (walk_error_stops_discovery (libs := libs)
           (directory root three_files) "nowhere/" [] [] []
           (mkVisit "nowhere/" None
                    (Some "lstat: no such file or directory"))
           "lstat: no such file or directory").
  - reflexivity.
  - constructor.
  - reflexivity.
Defined.

Lemma analysis_error_stops_discovery_witness :
  findHenryFiles (libs := libs) unreadable root
    = Ok ([], Some "open: permission denied")
  /\ main_at (libs := libs) unreadable root
     = Panic (panic_error "open: permission denied").
Proof.
  apply (analysis_error_stops_discovery (libs := libs) unreadable root
           [visit_root] [] [[]] (visit_of "a.md")
           (mkFileInfo "a.md" false noon)
           (fst (classifyHenryFile (new_HenryFile "a.md" "data/a.md") root))
           "open: permission denied").
  - reflexivity.
  - constructor; [accept_directory|constructor].
  - reflexivity.
  - reflexivity.
  - reflexivity.
  - vm_compute; reflexivity.
Defined.

Lemma analysis_panic_ends_the_run_witness :
  findHenryFiles (libs := libs)
    (directory root [mkExample "post.md" unclosed_md noon]) root
    = Panic (index_out_of_range 2 2)
  /\ main_at (libs := libs)
       (directory root [mkExample "post.md" unclosed_md noon]) root
     = Panic (index_out_of_range 2 2).
Proof.
  apply (analysis_panic_ends_the_run (libs := libs)
           (directory root [mkExample "post.md" unclosed_md noon]) root
           [visit_root] [] [[]] (visit_of "post.md")
           (mkFileInfo "post.md" false noon) (index_out_of_range 2 2)).
  - reflexivity.
  - constructor; [accept_directory|constructor].
  - reflexivity.
  - reflexivity.
  - reflexivity.
  - vm_compute; reflexivity.
Defined.

Lemma assembler_never_skips_witness :
  @None error = None
  /\ List.length [hello_doc; plain_doc] = List.length [hello_file; plain_file]
  /\ Forall2 (fun file doc =>
                createHenryDocument (libs := libs) file = Ok (doc, None))
             [hello_file; plain_file] [hello_doc; plain_doc].
Proof.
  apply (assembler_never_skips (libs := libs) [hello_file; plain_file]
           [hello_doc; plain_doc] None).
  vm_compute; reflexivity.
Defined.

Lemma run_returns_one_document_per_file_witness :
  exists docs,
    main_at (libs := libs)
      (directory root [mkExample "a.md" hello_md noon;
                       mkExample "c.md" plain_md noon]) root = Ok docs
    /\ Forall2 (fun file doc =>
                  createHenryDocument (libs := libs) file = Ok (doc, None))
               [hello_file; plain_file] docs.
Proof.
  apply (run_returns_one_document_per_file (libs := libs)
           (directory root [mkExample "a.md" hello_md noon;
                            mkExample "c.md" plain_md noon]) root
           [[]; [hello_file]; [plain_file]]).
  - change (fs_walk _ root)
      with [visit_root; visit_of "a.md"; visit_of "c.md"].
    constructor; [accept_directory|].
    constructor; [accept_file hello_file|].
    constructor; [accept_file plain_file|constructor].
  - repeat constructor; discriminate.
Defined.

Lemma file_without_metadata_panics_the_run_witness :
  main_at (libs := libs) (directory root mixed_files) root
  = Panic nil_dereference.
Proof.
  apply (file_without_metadata_panics_the_run (libs := libs)
           (directory root mixed_files) root
           [[]; [hello_file]; [notes_file]] (visit_of "notes.txt")
           (mkFileInfo "notes.txt" false noon)).
  - change (fs_walk _ root)
      with [visit_root; visit_of "a.md"; visit_of "notes.txt"].
    constructor; [accept_directory|].
    constructor; [accept_file hello_file|].
    constructor; [accept_file notes_file|constructor].
  - right; right; left; reflexivity.
  - reflexivity.
  - reflexivity.
  - left; reflexivity.
Defined.

Lemma plain_markdown_document_witness :
  exists file doc,
    analyzeHenryFile (libs := libs) (directory root three_files)
      (new_HenryFile "c.md" "data/c.md") root = Ok (file, None)
    /\ createHenryDocument (libs := libs) file = Ok (doc, None)
    /\ file_HasMetadata file = false
    /\ doc_Title doc = "c.md"
    /\ doc_Date doc = noon
    /\ doc_Draft doc = false
    /\ doc_ContentRaw doc = plain_md.
Proof.
  apply (plain_markdown_document (libs := libs)
           (directory root three_files) root "c.md" "data/c.md" plain_md
           (mkFileInfo "c.md" false noon)).
  - reflexivity.
  - reflexivity.
  - discriminate.
  - reflexivity.
  - reflexivity.
Defined.

End MoreRuns.

(** ** Files with front matter *)

Section FrontMatterDocuments.

Context {libs : Libraries}.

Lemma prefix_take (p s : string) (n : nat) :
  String.prefix p (strings.take n s) = true -> String.prefix p s = true.
Proof.
  revert s n; induction p as [|a p IH]; intros s n; [now destruct s|].
  destruct n as [|n], s as [|b s]; cbn [strings.take]; try discriminate.
  rewrite !prefix_cons. intros H; apply andb_prop in H as [-> H].
  cbn [andb]. now apply (IH s n).
Qed.

(** The text before the first occurrence of a separator does not hold
    the separator. *)
Lemma Index_take (sep s : string) (i : nat) :
  sep <> EmptyString ->
  strings.Index s sep = Some i ->
  strings.Index (strings.take i s) sep = None.
Proof.
  intros Hsep. revert i; induction s as [|a s IH]; intros i;
    rewrite Index_unfold; destruct (String.prefix sep _) eqn:E;
    try discriminate.
  - intros [= <-]. now apply Index_empty.
  - intros [= <-]. now apply Index_empty.
  - destruct (strings.Index s sep) as [j|] eqn:J; [|discriminate].
    intros [= <-]. cbn [strings.take]. rewrite Index_unfold.
    destruct (String.prefix sep (String a (strings.take j s))) eqn:P.
    + apply (prefix_take sep (String a s) (S j)) in P. congruence.
    + now rewrite (IH j eq_refl).
Qed.

Lemma up_to_holds_no_separator (sep s : string) :
  sep <> EmptyString -> strings.Index (up_to s sep) sep = None.
Proof.
  intros Hsep. unfold up_to, cut.
  destruct (strings.Index s sep) as [i|] eqn:E; [|exact E].
  now apply Index_take.
Qed.

(** The body the parser stores for a file that starts with the delimiter
    never holds the delimiter, and neither does the text it hands to the
    decoder: a delimiter inside the front matter or the body cuts them
    short. *)
Theorem front_matter_body_holds_no_delimiter (file file' : HenryFile)
    (t : string) :
  slice.to_string (file_Data file) = delimiter ++ t ->
  readHenryFileMetadata file = Ok (file', None) ->
  strings.Index (file_Body file') delimiter = None
  /\ exists block m,
       strings.Index block delimiter = None
       /\ toml_Decode block metadata_zero = (m, None)
       /\ file_Metadata file' = Some m.
Proof.
  intros Hdata. rewrite (readHenryFileMetadata_delimited _ _ Hdata).
  pose proof (up_to_holds_no_separator delimiter t) as Hblock.
  destruct (toml_Decode (up_to t delimiter) metadata_zero) as [m [e|]] eqn:D;
    [discriminate|].
  destruct (cut t delimiter) as [[before after]|]; [|discriminate].
  intros [= <-]. cbn [set_Body file_Body file_Metadata]. split.
  - apply up_to_holds_no_separator. discriminate.
  - exists (up_to t delimiter), m. split; [apply Hblock; discriminate|].
    now split.
Qed.

Variable fs : FileSystem.
Variable rootPath : string.

(** A markdown file with a closed front-matter block that decodes: its
    analysis succeeds when [os.Stat] does, and its document takes the raw
    content from between the second and the third delimiter, the draft
    flag from the metadata, and title and date from the metadata unless
    they are empty or zero. *)
Theorem front_matter_document (name path t block after : string)
    (m : HenryFileMetadata) (info : FileInfo) :
  strings.HasSuffix path ".md" = true ->
  fs_read fs path = inr (delimiter ++ t) ->
  cut t delimiter = Some (block, after) ->
  toml_Decode block metadata_zero = (m, None) ->
  fs_Stat fs path = inr info ->
  exists file doc,
    analyzeHenryFile fs (new_HenryFile name path) rootPath = Ok (file, None)
    /\ createHenryDocument file = Ok (doc, None)
    /\ file_HasMetadata file = true
    /\ doc_ContentRaw doc = up_to after delimiter
    /\ doc_Draft doc = meta_Draft m
    /\ doc_Title doc
       = (if String.eqb (meta_Title m) EmptyString then name
          else meta_Title m)
    /\ doc_Date doc
       = (if IsZero (meta_Date m) then fi_ModTime info else meta_Date m).
Proof.
  intros Hmd Hread Hcut Hdec Hstat.
  rewrite (analyzeHenryFile_markdown _ _ _ _ Hmd), Hread.
  erewrite readHenryFileMetadata_delimited
    by (cbn [set_Data file_Data]; apply to_string_ReadAll).
  unfold up_to at 1. rewrite Hcut, Hdec. cbn [bind].
  unfold classifyHenryFile. cbn [new_HenryFile file_Path file_Name fst].
  rewrite Hmd.
  cbn [set_Type set_SubPath set_Data set_HasMetadata set_Metadata set_Body
       file_Path].
  change (file_Path (new_HenryFile name path)) with path.
  rewrite Hstat. do 2 eexists. split; [reflexivity|].
  split; [apply createHenryDocument_Some; reflexivity|].
  now repeat split.
Qed.

End FrontMatterDocuments.

Lemma front_matter_body_holds_no_delimiter_witness :
  strings.Index (nl ++ "above" ++ nl) delimiter = None
  /\ exists block m,
       strings.Index block delimiter = None
       /\ toml_Decode (Libraries := Examples.libs) block metadata_zero
          = (m, None)
       /\ Some (mkMetadata "Rule" Time_zero false EmptyString) = Some m.
Proof.
  apply (front_matter_body_holds_no_delimiter (libs := Examples.libs)
           (Examples.loaded "rule.md" Examples.rule_md)
           (set_Body
              (set_Metadata
                 (set_HasMetadata
                    (Examples.loaded "rule.md" Examples.rule_md) true)
                 (Some (mkMetadata "Rule" Time_zero false EmptyString)))
              (nl ++ "above" ++ nl))
           (Examples.rule_block ++ delimiter ++ Examples.rule_after)).
  - vm_compute; reflexivity.
  - vm_compute; reflexivity.
Defined.

Lemma front_matter_document_witness :
  exists file doc,
    analyzeHenryFile (libs := Examples.libs)
      (Examples.directory Examples.root Examples.three_files)
      (new_HenryFile "a.md" "data/a.md") Examples.root = Ok (file, None)
    /\ createHenryDocument (libs := Examples.libs) file = Ok (doc, None)
    /\ file_HasMetadata file = true
    /\ doc_ContentRaw doc = up_to (nl ++ "First post" ++ nl) delimiter
    /\ doc_Draft doc = true
    /\ doc_Title doc = "Hello"
    /\ doc_Date doc = Examples.noon.
Proof.
  apply (front_matter_document (libs := Examples.libs)
           (Examples.directory Examples.root Examples.three_files)
           Examples.root "a.md" "data/a.md"
           (nl ++ "title = " ++ Examples.dq ++ "Hello" ++ Examples.dq ++ nl
               ++ "draft = true" ++ nl ++ "---" ++ nl ++ "First post" ++ nl)
           (nl ++ "title = " ++ Examples.dq ++ "Hello" ++ Examples.dq ++ nl
               ++ "draft = true" ++ nl)
           (nl ++ "First post" ++ nl)
           (mkMetadata "Hello" Time_zero true EmptyString)
           (mkFileInfo "a.md" false Examples.noon));
    vm_compute; reflexivity.
Defined.
